(** * Volatility-Forecaster: the numeric core against its specification

    A shallow embedding of [src/data_utils.py] ([DataProcessor.calculate_returns])
    and [src/python_app/garch_models.py] ([GARCHModel]).

    Modelling conventions.
    - A float64 is an idealised extended real ([float] below): a finite real,
      one of the two infinities, or NaN.  Rounding, overflow and the sign of
      zero are not modelled; NaN and the infinities are, because pandas'
      [dropna] and numpy's division and logarithm depend on them.
    - A Python exception is a value of [exn]; a [try] body is a computation in
      the error monad [py]; what a method hands to its caller is an [outcome]:
      the lines it printed and the value it returned ([None] on failure).
    - Functions of third-party packages (arch, scipy, numpy.linalg, pandas'
      [autocorr]) are the fields of the class [Libraries]; the theorems hold
      for every instance of it.
    - A fit result is an object: it lives at an address of a heap, the
      instance attribute and the value [fit_garch] returned name the same
      address, and the one thing a call changes in it, the state of the
      random generator its simulations draw from, is threaded through. *)

From Stdlib Require Import Reals Lra Lia ZArith String DecimalString Bool Arith List.
Import ListNotations.
Open Scope R_scope.

(** ** Idealised float64 *)

Module Float.

Inductive float : Type :=
| Fin (x : R)
| PInf
| NInf
| NaN.

Definition Rsign (x : R) : comparison :=
  match total_order_T x 0 with
  | inleft (left _) => Lt
  | inleft (right _) => Eq
  | inright _ => Gt
  end.

Definition isnan (a : float) : bool :=
  match a with NaN => true | _ => false end.

Definition fneg (a : float) : float :=
  match a with
  | Fin x => Fin (- x)
  | PInf => NInf
  | NInf => PInf
  | NaN => NaN
  end.

Definition fadd (a b : float) : float :=
  match a, b with
  | NaN, _ | _, NaN => NaN
  | Fin x, Fin y => Fin (x + y)
  | PInf, NInf | NInf, PInf => NaN
  | PInf, _ | _, PInf => PInf
  | NInf, _ | _, NInf => NInf
  end.

Definition fsub (a b : float) : float := fadd a (fneg b).

(** An infinity of sign [s] times a finite [x]. *)
Definition inf_times (positive : bool) (x : R) : float :=
  match Rsign x with
  | Eq => NaN
  | Gt => if positive then PInf else NInf
  | Lt => if positive then NInf else PInf
  end.

Definition fmul (a b : float) : float :=
  match a, b with
  | NaN, _ | _, NaN => NaN
  | Fin x, Fin y => Fin (x * y)
  | PInf, Fin x | Fin x, PInf => inf_times true x
  | NInf, Fin x | Fin x, NInf => inf_times false x
  | PInf, PInf | NInf, NInf => PInf
  | PInf, NInf | NInf, PInf => NInf
  end.

(** numpy division: a zero divisor gives an infinity or NaN, never an
    exception. *)
Definition fdiv (a b : float) : float :=
  match a, b with
  | NaN, _ | _, NaN => NaN
  | Fin x, Fin y =>
      match Rsign y with
      | Eq => match Rsign x with Eq => NaN | Gt => PInf | Lt => NInf end
      | _ => Fin (x / y)
      end
  | Fin _, PInf | Fin _, NInf => Fin 0
  | PInf, Fin y => match Rsign y with Lt => NInf | _ => PInf end
  | NInf, Fin y => match Rsign y with Lt => PInf | _ => NInf end
  | _, _ => NaN
  end.

(** [x ** 2] *)
Definition fsq (a : float) : float := fmul a a.

(** [np.log] *)
Definition flog (a : float) : float :=
  match a with
  | Fin x => match Rsign x with Gt => Fin (ln x) | Eq => NInf | Lt => NaN end
  | PInf => PInf
  | NInf | NaN => NaN
  end.

(** [np.sqrt] *)
Definition fsqrt (a : float) : float :=
  match a with
  | Fin x => match Rsign x with Lt => NaN | _ => Fin (sqrt x) end
  | PInf => PInf
  | NInf | NaN => NaN
  end.

(** [np.exp] *)
Definition fexp (a : float) : float :=
  match a with
  | Fin x => Fin (exp x)
  | PInf => PInf
  | NInf => Fin 0
  | NaN => NaN
  end.

(** Python's builtin [sum]: a left fold that starts from the int 0. *)
Definition py_sum (l : list float) : float := fold_left fadd l (Fin 0).

End Float.
Import Float.

(** ** Exceptions, the error monad and what a caller sees *)

Inductive exn : Type :=
| ValueError (msg : string)
| IndexError (msg : string)
| AttributeError (msg : string)
| LinAlgError (msg : string)
| ZeroDivisionError (msg : string)
| LibraryError (msg : string).

(** [str(e)] *)
Definition str (e : exn) : string :=
  match e with
  | ValueError m | IndexError m | AttributeError m
  | LinAlgError m | ZeroDivisionError m | LibraryError m => m
  end.

Definition py (A : Type) : Type := (exn + A)%type.

Definition ret {A} (a : A) : py A := inr a.
Definition raise {A} (e : exn) : py A := inl e.
Definition bind {A B} (c : py A) (k : A -> py B) : py B :=
  match c with
  | inl e => inl e
  | inr a => k a
  end.

Declare Scope py_scope.
Delimit Scope py_scope with py.
Notation "x <- c ;; k" := (bind c (fun x => k))
  (at level 61, c at next level, right associativity) : py_scope.

Record outcome (A : Type) : Type := mkOutcome {
  stdout : list string;
  value : option A
}.
Arguments mkOutcome {A} _ _.
Arguments stdout {A} _.
Arguments value {A} _.

Definition returned {A} (a : A) : outcome A := mkOutcome [] (Some a).

(** [except Exception as e: print(f"<prefix>{str(e)}"); return None] *)
Definition caught {A} (prefix : string) (e : exn) : outcome A :=
  mkOutcome [(prefix ++ str e)%string] None.

(** [try: <body> except Exception as e: ...], for a body that returns the
    value it computes. *)
Definition try_except {A} (prefix : string) (body : py A) : outcome A :=
  match body with
  | inr a => returned a
  | inl e => caught prefix e
  end.

(** ** pandas Series and DataFrame, as far as the code uses them *)

Module Pandas.

(** A Series: row labels with their values.  The label of a row is its
    position in the price frame it comes from (the frame's dates are
    distinct and increasing, so positions stand for dates). *)
Definition Series : Type := list (nat * float).

Definition labels (s : Series) : list nat := map fst s.
Definition values (s : Series) : list float := map snd s.

(** The values [vs] on the consecutive rows [a], [a+1], ... *)
Definition series_from (a : nat) (vs : list float) : Series :=
  combine (seq a (length vs)) vs.

(** A column of a frame: its values on the rows 0, 1, ... *)
Definition of_column (vs : list float) : Series := series_from 0 vs.

(** [s.shift(1)] *)
Definition shift1 (s : Series) : Series :=
  combine (labels s) (firstn (length s) (NaN :: values s)).

(** An elementwise binary operation on two Series over the same index. *)
Definition zip_with (f : float -> float -> float) (a b : Series) : Series :=
  map (fun ab => (fst (fst ab), f (snd (fst ab)) (snd (snd ab)))) (combine a b).

Definition smap (f : float -> float) (s : Series) : Series :=
  map (fun ix => (fst ix, f (snd ix))) s.

(** [s.dropna()]: the infinities stay. *)
Definition dropna (s : Series) : Series :=
  filter (fun ix => negb (isnan (snd ix))) s.

(** [s.pct_change()] on a Series without NaN *)
Definition pct_change (s : Series) : Series :=
  smap (fun x => fsub x (Fin 1)) (zip_with fdiv s (shift1 s)).

(** [s[1:]] *)
Definition from1 (s : Series) : Series := tl s.

Record DataFrame : Type := mkFrame {
  df_index : list nat;
  df_columns : list (string * list float)
}.

Fixpoint insert_label (x : nat) (l : list nat) : list nat :=
  match l with
  | [] => [x]
  | y :: l' =>
      if (x <? y)%nat then x :: l
      else if (x =? y)%nat then l
      else y :: insert_label x l'
  end.

(** The sorted union of the indexes of the Series given to [pd.DataFrame]. *)
Definition index_union (ixs : list (list nat)) : list nat :=
  fold_right insert_label [] (concat ixs).

(** [s.get(i)], NaN where [s] has no row [i] *)
Definition loc (s : Series) (i : nat) : float :=
  match find (fun ix => (fst ix =? i)%nat) s with
  | Some ix => snd ix
  | None => NaN
  end.

Definition reindex (idx : list nat) (s : Series) : list float :=
  map (loc s) idx.

(** [pd.DataFrame({name: series, ...})]: rows are the union of the indexes,
    each column is aligned on it, NaN where a Series has no such row. *)
Definition make_frame (cols : list (string * Series)) : DataFrame :=
  let idx := index_union (map (fun c => labels (snd c)) cols) in
  mkFrame idx (map (fun c => (fst c, reindex idx (snd c))) cols).

Fixpoint lookup {A} (k : string) (cols : list (string * A)) : option A :=
  match cols with
  | [] => None
  | (k', v) :: rest => if String.eqb k k' then Some v else lookup k rest
  end.

(** [frame[name]] on a result frame *)
Definition column (name : string) (df : DataFrame) : option (list float) :=
  lookup name (df_columns df).

End Pandas.
Import Pandas.

(** ** data_utils.py: DataProcessor.calculate_returns *)

Module DataProcessor.

(** The price frame handed in: its columns in order, label and values.
    Labels are distinct, as in a yfinance frame. *)
Definition PriceFrame : Type := list (string * list float).

(** [price_data.iloc[:, -1]] *)
Definition iloc_last_column (price_data : PriceFrame) : py (list float) :=
  match rev price_data with
  | [] => raise (IndexError "single positional indexer is out-of-bounds"%string)
  | c :: _ => ret (snd c)
  end.

(** Lines 76-82: the column the returns are computed from. *)
Definition select_prices (price_data : PriceFrame) : py Series :=
  match lookup "Adj Close"%string price_data with
  | Some c => ret (of_column c)
  | None =>
      match lookup "Close"%string price_data with
      | Some c => ret (of_column c)
      | None => bind (iloc_last_column price_data) (fun c => ret (of_column c))
      end
  end.

(** Lines 84-100, given the selected column. *)
Definition returns_frame (prices : Series) : DataFrame :=
  let log_returns := smap flog (zip_with fdiv prices (shift1 prices)) in
  let log_returns := dropna log_returns in
  let simple_returns := dropna (pct_change prices) in
  make_frame [ ("log_returns"%string, log_returns);
               ("simple_returns"%string, from1 simple_returns);
               ("price"%string, from1 prices) ].

Definition calculate_returns (price_data : PriceFrame) : outcome DataFrame :=
  try_except "Error calculating returns: "%string
    (bind (select_prices price_data) (fun prices => ret (returns_frame prices))).

(** The log returns of consecutive prices, [ln (p(t) / p(t-1))] for
    t = 2 .. N, written on the list of prices. *)
Fixpoint consecutive_log_returns (prices : list float) : list float :=
  match prices with
  | [] => []
  | p :: rest =>
      match rest with
      | [] => []
      | q :: _ => flog (fdiv q p) :: consecutive_log_returns rest
      end
  end.

(** [calculate_returns] succeeds without printing anything and its
    ['log_returns'] column holds the consecutive log returns of [prices]. *)
Definition returns_computed_from (price_data : PriceFrame) (prices : list float)
  : Prop :=
  exists df,
    calculate_returns price_data = returned df /\
    column "log_returns"%string df = Some (consecutive_log_returns prices).

(** A frame with a zero price and three rows only. *)
Definition frame_with_zero_price : PriceFrame :=
  [ ("Close"%string, [Fin 100; Fin 0; Fin 50]) ].

(** Three adjusted closes, each ten percent above the one before. *)
Definition rising_prices_frame : PriceFrame :=
  [ ("Close"%string, [Fin 99; Fin 108; Fin 120]);
    ("Adj Close"%string, [Fin 100; Fin 110; Fin 121]) ].

(** A frame without an adjusted close. *)
Definition frame_without_adjusted_close : PriceFrame :=
  [ ("Open"%string, [Fin 1; Fin 2]); ("Close"%string, [Fin 3; Fin 6]);
    ("Volume"%string, [Fin 1000; Fin 2000]) ].

End DataProcessor.
Import DataProcessor.

(** ** numpy arrays, as far as the code uses them *)

Module Numpy.

Definition vector : Type := list float.
(** A 2-D array, row by row. *)
Definition matrix : Type := list (list float).

Fixpoint map2 {A B C} (f : A -> B -> C) (l1 : list A) (l2 : list B) : list C :=
  match l1, l2 with
  | a :: l1', b :: l2' => f a b :: map2 f l1' l2'
  | _, _ => []
  end.

(** [np.sum] *)
Definition np_sum (v : vector) : float := fold_left fadd v (Fin 0).

Fixpoint cumsum_from (acc : float) (v : vector) : vector :=
  match v with
  | [] => []
  | x :: v' => let acc' := fadd acc x in acc' :: cumsum_from acc' v'
  end.

(** [np.cumsum] *)
Definition np_cumsum (v : vector) : vector := cumsum_from (Fin 0) v.

(** [np.mean]: NaN on an empty array. *)
Definition np_mean (v : vector) : float := fdiv (np_sum v) (Fin (INR (length v))).

(** [np.ones((rows, cols))] *)
Definition ones (rows cols : nat) : matrix := repeat (repeat (Fin 1) cols) rows.

(** [l[a:b]] for 0 <= a <= b *)
Definition slice {A} (a b : nat) (l : list A) : list A := firstn (b - a) (skipn a l).

Fixpoint list_set {A} (j : nat) (v : A) (l : list A) : list A :=
  match l, j with
  | [], _ => []
  | _ :: l', O => v :: l'
  | x :: l', S j' => x :: list_set j' v l'
  end.

(** [X[:, j] = col] *)
Definition set_column (j : nat) (col : vector) (X : matrix) : matrix :=
  map2 (fun row v => list_set j v row) X col.

Definition dot (u v : vector) : float := np_sum (map2 fmul u v).

(** [X.T] of an array with [cols] columns *)
Definition transpose (cols : nat) (X : matrix) : matrix :=
  map (fun j => map (fun row => nth j row NaN) X) (seq 0 cols).

(** [A @ v] *)
Definition matvec (A : matrix) (v : vector) : vector := map (fun row => dot row v) A.

(** [A @ B], [B] having [cols] columns *)
Definition matmul (cols : nat) (A B : matrix) : matrix :=
  map (fun row => map (fun c => dot row c) (transpose cols B)) A.

End Numpy.
Import Numpy.

(** ** garch_models.py *)

(** The state of the random generator a fitted arch model holds (in the
    distribution of the model the result refers to), from which its
    simulations draw their shocks when no seed is given.  The code reaches
    it through the result only, so it is kept with the result. *)
Definition generator : Type := nat.

(** The result object of the arch package ([ARCHModelResult]): the attributes
    and the one method the code reads.  All of them are on the scale of the
    series the model was fitted to.  The object is mutable in one respect:
    a simulation moves its generator on. *)
Record ARCHModelResult : Type := mkResult {
  params : list (string * float);
  aic : float;
  bic : float;
  loglikelihood : float;
  nobs : nat;
  resid : list float;
  conditional_volatility : list float;
  (** the generator as it stands *)
  generator_state : generator;
  (** [forecast(horizon=h, method=m, simulations=s).variance.values] with
      the generator in the given state, and the state the call leaves it
      in *)
  forecast : generator -> nat -> string -> nat -> py matrix * generator
}.

(** The same object with its generator moved to [g]. *)
Definition with_generator (fit : ARCHModelResult) (g : generator) : ARCHModelResult :=
  mkResult (params fit) (aic fit) (bic fit) (loglikelihood fit) (nobs fit)
    (resid fit) (conditional_volatility fit) g (forecast fit).

(** The third-party functions the code calls. *)
Class Libraries : Type := {
  (** the model object [arch_model] builds *)
  ARCHModel : Type;
  (** [arch_model(y, vol=, p=, q=, dist=)] *)
  arch_model : list float -> string -> nat -> nat -> string -> py ARCHModel;
  (** [model.fit(disp='off', show_warning=False)] *)
  arch_model_fit : ARCHModel -> py ARCHModelResult;
  (** [scipy.stats.chi2.cdf(x, df)] *)
  chi2_cdf : float -> nat -> float;
  (** [scipy.stats.chi2.ppf(q, df)] *)
  chi2_ppf : float -> nat -> float;
  (** [Series.autocorr(lag)] *)
  autocorr : list float -> nat -> float;
  (** [np.linalg.solve(A, b)]; raises [LinAlgError] on a singular [A] *)
  linalg_solve : matrix -> vector -> py vector
}.

Module GARCHModel.

(** The instance attributes set in [__init__]. *)
Record self_state {L : Libraries} : Type := mkSelf {
  model : option ARCHModel;
  fitted_model : option ARCHModelResult
}.
Arguments mkSelf {L} _ _.

Definition init {L : Libraries} : self_state := mkSelf None None.

(** [pd.Series(returns).dropna()] *)
Definition dropna_values (l : list float) : list float :=
  filter (fun x => negb (isnan x)) l.

Definition insufficient_data_message : string :=
  "Insufficient data for GARCH modeling (minimum 50 observations required)"%string.

Definition fit_prefix : string := "Error fitting GARCH model: "%string.
Definition forecast_prefix : string := "Error generating forecasts: "%string.
Definition summary_prefix : string := "Error extracting model summary: "%string.
Definition residuals_prefix : string := "Error calculating residuals: "%string.
Definition ljung_box_prefix : string := "Error performing Ljung-Box test: "%string.
Definition arch_lm_prefix : string := "Error performing ARCH-LM test: "%string.

(** [returns_clean * 100] *)
Definition scale_returns (returns_clean : list float) : list float :=
  map (fun r => fmul r (Fin 100)) returns_clean.

(** Lines 41-68.  The instance is threaded through: [self.model] is written
    once [arch_model] has returned, [self.fitted_model] once [fit] has. *)
Definition fit_garch {L : Libraries} (self : self_state)
    (returns : list float) (p q : nat) (dist : string)
  : self_state * outcome ARCHModelResult :=
  let returns_clean := dropna_values returns in
  if (length returns_clean <? 50)%nat then
    (self, caught fit_prefix (ValueError insufficient_data_message))
  else
    let returns_scaled := scale_returns returns_clean in
    match arch_model returns_scaled "GARCH"%string p q dist with
    | inl e => (self, caught fit_prefix e)
    | inr m =>
        let self1 := mkSelf (Some m) (fitted_model self) in
        match arch_model_fit m with
        | inl e => (self1, caught fit_prefix e)
        | inr fit => (mkSelf (Some m) (Some fit), returned fit)
        end
    end.

(** Reading an attribute of [model_fit], which is [None] when the fit failed. *)
Definition getattr {A} (model_fit : option ARCHModelResult) (name : string)
    (field : ARCHModelResult -> A) : py A :=
  match model_fit with
  | Some fit => ret (field fit)
  | None =>
      raise (AttributeError
               ("'NoneType' object has no attribute '" ++ name ++ "'")%string)
  end.

Record Forecast : Type := mkForecast {
  volatility_forecast : list float;
  variance_forecast : list float;
  forecast_horizon : nat
}.

(** [values[-1, :]] *)
Definition last_row (m : matrix) : py vector :=
  match rev m with
  | [] => raise (IndexError "index -1 is out of bounds for axis 0 with size 0"%string)
  | r :: _ => ret r
  end.

Local Open Scope py_scope.

(** Line 87: the simulated variances, and [model_fit] as the simulation
    leaves it. *)
Definition simulate (model_fit : option ARCHModelResult) (horizon : nat)
  : py matrix * option ARCHModelResult :=
  match model_fit with
  | None => (getattr None "forecast"%string (fun _ => ([] : matrix)), None)
  | Some fit =>
      let drawn :=
        forecast fit (generator_state fit) horizon "simulation"%string 1000%nat in
      (fst drawn, Some (with_generator fit (snd drawn)))
  end.

(** Lines 85-107: what the call returns, and [model_fit] as the call
    leaves it. *)
Definition forecast_volatility_call (model_fit : option ARCHModelResult)
    (horizon : nat) : outcome Forecast * option ARCHModelResult :=
  let simulated := simulate model_fit horizon in
  (try_except forecast_prefix
     (variance <- fst simulated ;;
      variance_forecast <- last_row variance ;;
      let volatility_forecast := map fsqrt variance_forecast in
      let volatility_forecast := map (fun v => fdiv v (Fin 100)) volatility_forecast in
      let variance_forecast := map (fun v => fdiv v (Fin 10000)) variance_forecast in
      ret (mkForecast volatility_forecast variance_forecast horizon)),
   snd simulated).

(** What [forecast_volatility] returns for [model_fit] as it stands. *)
Definition forecast_volatility (model_fit : option ARCHModelResult) (horizon : nat)
  : outcome Forecast :=
  fst (forecast_volatility_call model_fit horizon).

Record Summary : Type := mkSummary {
  parameters : list (string * float);
  summary_aic : float;
  summary_bic : float;
  summary_loglikelihood : float;
  num_observations : nat
}.

(** [d[k] = v] on a dict kept in insertion order *)
Fixpoint dict_set (k : string) (v : float) (d : list (string * float))
  : list (string * float) :=
  match d with
  | [] => [(k, v)]
  | (k', v') :: d' =>
      if String.eqb k k' then (k, v) :: d' else (k', v') :: dict_set k v d'
  end.

(** Lines 122-146. *)
Definition get_model_summary (model_fit : option ARCHModelResult) : outcome Summary :=
  try_except summary_prefix
    (ps <- getattr model_fit "params"%string params ;;
     a <- getattr model_fit "aic"%string aic ;;
     b <- getattr model_fit "bic"%string bic ;;
     ll <- getattr model_fit "loglikelihood"%string loglikelihood ;;
     let param_dict := fold_left (fun d kv => dict_set (fst kv) (snd kv) d) ps [] in
     n <- getattr model_fit "nobs"%string nobs ;;
     ret (mkSummary param_dict a b ll n)).

(** Lines 161-173. *)
Definition calculate_residuals (model_fit : option ARCHModelResult)
  : outcome (list float) :=
  try_except residuals_prefix
    (residuals <- getattr model_fit "resid"%string resid ;;
     cv <- getattr model_fit "conditional_volatility"%string conditional_volatility ;;
     ret (map2 fdiv residuals cv)).

Record TestResult : Type := mkTest {
  test_statistic : float;
  p_value : float;
  lags_used : nat;
  critical_value : float
}.

(** [l[i]] *)
Definition getitem (l : list float) (i : nat) : py float :=
  match nth_error l i with
  | Some x => ret x
  | None => raise (IndexError "list index out of range"%string)
  end.

(** A list comprehension whose element expression can raise. *)
Fixpoint comprehension {A B} (f : A -> py B) (l : list A) : py (list B) :=
  match l with
  | [] => ret []
  | a :: l' => b <- f a ;; bs <- comprehension f l' ;; ret (b :: bs)
  end.

(** [x / k] in line 211, [k] a Python int.  The divisor [n - i - 1] is
    zero at the lag [n] only; there the shifted series shares no row with
    the series, [autocorr] hands back Python's own float nan, and dividing
    that by the int 0 raises.  At every other lag the division is numpy's
    or has a divisor other than zero. *)
Definition divide_by_int (x : float) (k : Z) : py float :=
  if (k =? 0)%Z then raise (ZeroDivisionError "float division by zero"%string)
  else ret (fdiv x (Fin (IZR k))).

(** Lines 199-221, given the standardized residuals. *)
Definition ljung_box_body {L : Libraries} (std_residuals : list float) (lags : nat)
  : py TestResult :=
  let squared_residuals := map fsq std_residuals in
  let n := length squared_residuals in
  let autocorr_list :=
    map (fun lag => autocorr squared_residuals lag) (seq 1 lags) in
  terms <- comprehension
             (fun i => r <- getitem autocorr_list i ;;
                       divide_by_int (fsq r) (Z.of_nat n - Z.of_nat i - 1))
             (seq 0 lags) ;;
  let lb_stat := fmul (Fin (IZR (Z.of_nat n * (Z.of_nat n + 2)))) (py_sum terms) in
  let p := fsub (Fin 1) (chi2_cdf lb_stat lags) in
  ret (mkTest lb_stat p lags (chi2_ppf (Fin 0.95) lags)).

(** A method that first calls [calculate_residuals] and returns [None] when
    that did, then runs its own [try] body.  The body may itself return
    [None]. *)
Definition on_residuals {A} (model_fit : option ARCHModelResult) (prefix : string)
    (body : list float -> py (option A)) : outcome A :=
  let r := calculate_residuals model_fit in
  match value r with
  | None => mkOutcome (stdout r) None
  | Some std_residuals =>
      match body std_residuals with
      | inr v => mkOutcome (stdout r) v
      | inl e => mkOutcome (stdout r ++ [(prefix ++ str e)%string]) None
      end
  end.

(** Lines 190-225. *)
Definition ljung_box_test {L : Libraries} (model_fit : option ARCHModelResult)
    (lags : nat) : outcome TestResult :=
  on_residuals model_fit ljung_box_prefix
    (fun std => t <- ljung_box_body std lags ;; ret (Some t)).

(** Lines 255-261: the regressors and the regressand.  [n - lags] is a
    Python int: a negative one makes [np.ones] raise. *)
Definition design (squared_residuals : list float) (lags : nat)
  : py (matrix * vector) :=
  let n := length squared_residuals in
  if (n <? lags)%nat then
    raise (ValueError "negative dimensions are not allowed"%string)
  else
    let X := ones (n - lags) (lags + 1) in
    let X := fold_left
               (fun X i =>
                  set_column (i + 1)
                    (slice (lags - i - 1) (n - i - 1) squared_residuals) X)
               (seq 0 lags) X in
    let y := skipn lags squared_residuals in
    ret (X, y).

(** Lines 266-269. *)
Definition r_squared_of (X : matrix) (y beta : vector) : float :=
  let fitted_values := matvec X beta in
  let ssr := np_sum (map fsq (map2 fsub y fitted_values)) in
  let y_mean := np_mean y in
  let tss := np_sum (map (fun v => fsq (fsub v y_mean)) y) in
  fsub (Fin 1) (fdiv ssr tss).

(** The normal equations handed to [np.linalg.solve]. *)
Definition normal_equations (lags : nat) (X : matrix) (y : vector)
  : matrix * vector :=
  let Xt := transpose (lags + 1) X in
  (matmul (lags + 1) Xt X, matvec Xt y).

(** Lines 252-283, given the standardized residuals.  The inner [try]
    turns a [LinAlgError] into a plain [return None]. *)
Definition arch_lm_body {L : Libraries} (std_residuals : list float) (lags : nat)
  : py (option TestResult) :=
  let squared_residuals := map fsq std_residuals in
  let n := length squared_residuals in
  Xy <- design squared_residuals lags ;;
  let X := fst Xy in
  let y := snd Xy in
  let eqs := normal_equations lags X y in
  match linalg_solve (fst eqs) (snd eqs) with
  | inl (LinAlgError _) => ret None
  | inl e => raise e
  | inr beta =>
      let r_squared := r_squared_of X y beta in
      let lm_stat := fmul (Fin (INR (n - lags))) r_squared in
      let p := fsub (Fin 1) (chi2_cdf lm_stat lags) in
      ret (Some (mkTest lm_stat p lags (chi2_ppf (Fin 0.95) lags)))
  end.

(** Lines 242-287. *)
Definition arch_lm_test {L : Libraries} (model_fit : option ARCHModelResult)
    (lags : nat) : outcome TestResult :=
  on_residuals model_fit arch_lm_prefix (fun std => arch_lm_body std lags).

(** *** The instance and the objects across calls *)

(** The address of a fit object. *)
Definition ref : Type := nat.

(** One method call on an instance.  A [model_fit] argument is [None] or
    a fit made by an earlier [fit_garch], named by its address. *)
Inductive call : Type :=
| FitGarch (returns : list float) (p q : nat) (dist : string)
| ForecastVolatility (model_fit : option ref) (horizon : nat)
| GetModelSummary (model_fit : option ref)
| CalculateResiduals (model_fit : option ref)
| LjungBoxTest (model_fit : option ref) (lags : nat)
| ArchLmTest (model_fit : option ref) (lags : nat).

(** What a call hands back. *)
Inductive answer : Type :=
| Fitted (o : outcome ref)
| Forecasted (o : outcome Forecast)
| Summarised (o : outcome Summary)
| Residuals (o : outcome (list float))
| Tested (o : outcome TestResult).

(** An instance with the objects around it: its two attributes (the fit
    by address, since [self.fitted_model] and the value [fit_garch] returned
    are one object), the fit objects made so far, and the results handed
    out so far. *)
Record world {L : Libraries} : Type := mkWorld {
  attr_model : option ARCHModel;
  attr_fitted_model : option ref;
  heap : list ARCHModelResult;
  handed_out : list answer
}.
Arguments mkWorld {L} _ _ _ _.

Definition fresh {L : Libraries} : world := mkWorld None None [] [].

(** The object an argument names; an address at which no fit was made
    names none. *)
Definition deref (objects : list ARCHModelResult) (r : option ref)
  : option ARCHModelResult :=
  match r with
  | None => None
  | Some a => nth_error objects a
  end.

(** The object at [r] replaced by what a call left of it. *)
Definition store (objects : list ARCHModelResult) (r : option ref)
    (left : option ARCHModelResult) : list ARCHModelResult :=
  match r, left with
  | Some a, Some fit => list_set a fit objects
  | _, _ => objects
  end.

(** The instance as [fit_garch] finds it. *)
Definition self_of {L : Libraries} (w : world) : self_state :=
  mkSelf (attr_model w) (deref (heap w) (attr_fitted_model w)).

(** The effect of a call on the instance and the fit objects, and its
    answer. *)
Definition perform {L : Libraries} (w : world) (c : call)
  : option ARCHModel * option ref * list ARCHModelResult * answer :=
  match c with
  | FitGarch returns p q dist =>
      let r := fit_garch (self_of w) returns p q dist in
      match value (snd r) with
      | Some fit =>
          (model (fst r), Some (length (heap w)), heap w ++ [fit],
           Fitted (mkOutcome (stdout (snd r)) (Some (length (heap w)))))
      | None =>
          (model (fst r), attr_fitted_model w, heap w,
           Fitted (mkOutcome (stdout (snd r)) None))
      end
  | ForecastVolatility model_fit horizon =>
      let r := forecast_volatility_call (deref (heap w) model_fit) horizon in
      (attr_model w, attr_fitted_model w, store (heap w) model_fit (snd r),
       Forecasted (fst r))
  | GetModelSummary model_fit =>
      (attr_model w, attr_fitted_model w, heap w,
       Summarised (get_model_summary (deref (heap w) model_fit)))
  | CalculateResiduals model_fit =>
      (attr_model w, attr_fitted_model w, heap w,
       Residuals (calculate_residuals (deref (heap w) model_fit)))
  | LjungBoxTest model_fit lags =>
      (attr_model w, attr_fitted_model w, heap w,
       Tested (ljung_box_test (deref (heap w) model_fit) lags))
  | ArchLmTest model_fit lags =>
      (attr_model w, attr_fitted_model w, heap w,
       Tested (arch_lm_test (deref (heap w) model_fit) lags))
  end.

Definition step {L : Libraries} (w : world) (c : call) : world * answer :=
  match perform w c with
  | (m, f, objects, a) => (mkWorld m f objects (handed_out w ++ [a]), a)
  end.

(** A sequence of calls on one instance: the world they leave. *)
Fixpoint run {L : Libraries} (w : world) (cs : list call) : world :=
  match cs with
  | [] => w
  | c :: cs' => run (fst (step w c)) cs'
  end.

(** The answers of a sequence of calls, in order. *)
Fixpoint answers {L : Libraries} (w : world) (cs : list call) : list answer :=
  match cs with
  | [] => []
  | c :: cs' => snd (step w c) :: answers (fst (step w c)) cs'
  end.

End GARCHModel.
Import GARCHModel.

(** ** The specification's side *)

Module Spec.

(** The four failure kinds of section 7. *)
Inductive error_kind : Type :=
| InsufficientDataError
| InvalidInputError
| ConvergenceError
| NumericalInstabilityError.

(** Section 4.4: Q = N (N + 2) * sum over k = 1 .. L of rho(k)^2 / (N - k). *)
Definition ljung_box_statistic (rho : nat -> float) (N L : nat) : float :=
  fmul (Fin (INR N * (INR N + 2)))
    (py_sum (map (fun k => fdiv (fsq (rho k)) (Fin (INR N - INR k))) (seq 1 L))).

(** Section 4.4: the regressors of observation [lags + t]: the intercept,
    then its own lags 1 .. L. *)
Definition lagged_row (squared : list float) (lags t : nat) : list float :=
  Fin 1 :: map (fun k => nth (lags + t - k) squared NaN) (seq 1 lags).

(** The sum over t = 0 .. r - 1, in that order. *)
Definition sum_over (r : nat) (f : nat -> float) : float :=
  np_sum (map f (seq 0 r)).

(** Section 4.4, the regression.  Observation [t] is the squared residual
    at time [lags + t]; its regressor 0 is the intercept, its regressor
    [k] its own lag [k]. *)
Definition regressand (squared : list float) (lags t : nat) : float :=
  nth (lags + t) squared NaN.

Definition regressor (squared : list float) (lags t k : nat) : float :=
  match k with
  | O => Fin 1
  | S _ => nth (lags + t - k) squared NaN
  end.

(** Ordinary least squares on [r] observations: the coefficients solve
    the normal equations, sum over t of x_j(t) x_k(t) on the left,
    sum over t of x_j(t) y(t) on the right. *)
Definition ols_moments (squared : list float) (lags r : nat) : matrix :=
  map (fun j =>
         map (fun k =>
                sum_over r (fun t => fmul (regressor squared lags t j)
                                       (regressor squared lags t k)))
           (seq 0 (lags + 1)))
    (seq 0 (lags + 1)).

Definition ols_cross_moments (squared : list float) (lags r : nat) : vector :=
  map (fun j =>
         sum_over r (fun t => fmul (regressor squared lags t j)
                                (regressand squared lags t)))
    (seq 0 (lags + 1)).

(** The value the regression with coefficients [beta] fits to
    observation [t]. *)
Definition ols_fitted (squared : list float) (lags : nat) (beta : vector) (t : nat)
  : float :=
  sum_over (lags + 1)
    (fun k => fmul (regressor squared lags t k) (nth k beta NaN)).

(** R^2 = 1 - (sum of squared residuals) / (total sum of squares about
    the mean of the regressand). *)
Definition ols_r_squared (squared : list float) (lags r : nat) (beta : vector)
  : float :=
  let y := regressand squared lags in
  let ssr := sum_over r (fun t => fsq (fsub (y t) (ols_fitted squared lags beta t))) in
  let mean := fdiv (sum_over r y) (Fin (INR r)) in
  let tss := sum_over r (fun t => fsq (fsub (y t) mean)) in
  fsub (Fin 1) (fdiv ssr tss).

(** Section 4.2, "rescaled back": a reported parameter on the scale of the
    returns handed in, from its value on the scale of the returns times 100.
    The variance intercept scales with the square, the mean with the factor,
    the ARCH and GARCH coefficients not at all. *)
Definition original_units (name : string) (v : float) : float :=
  if String.eqb name "omega"%string then fdiv v (Fin 10000)
  else if String.eqb name "mu"%string then fdiv v (Fin 100)
  else v.

End Spec.
Import Spec.

(** ** Sample inputs and stand-ins for the libraries *)

Module Samples.

(** [np.linalg.solve] on a finite 2 x 2 system, by Cramer's rule. *)
Definition solve_2x2 (A : matrix) (b : vector) : py vector :=
  match A, b with
  | [[Fin a11; Fin a12]; [Fin a21; Fin a22]], [Fin b1; Fin b2] =>
      let det := a11 * a22 - a12 * a21 in
      match Rsign det with
      | Eq => raise (LinAlgError "Singular matrix"%string)
      | _ => ret [Fin ((b1 * a22 - a12 * b2) / det);
                  Fin ((a11 * b2 - b1 * a21) / det)]
      end
  | _, _ => raise (LibraryError "not a finite 2 x 2 system"%string)
  end.

(** The chi-squared distribution function with two degrees of freedom,
    1 - exp (- x / 2), standing in for every positive number of degrees;
    at zero degrees it is NaN, as scipy's is. *)
Definition chi2_cdf_two_df (x : float) (df : nat) : float :=
  match df, x with
  | O, _ => NaN
  | _, Fin r => match Rsign r with
                | Lt => Fin 0
                | _ => Fin (1 - exp (- r / 2))
                end
  | _, PInf => Fin 1
  | _, NInf => Fin 0
  | _, NaN => NaN
  end.

(** Its quantile function, - 2 ln (1 - q). *)
Definition chi2_ppf_two_df (q : float) (df : nat) : float :=
  match q with
  | Fin r => Fin (- 2 * ln (1 - r))
  | _ => NaN
  end.

(** A simulated variance path: 4 one step ahead, wherever the generator
    stands (that step needs no shock), then values that depend on the
    generator; the call moves the generator on by one. *)
Definition sample_forecast (g : generator) (horizon : nat) (method : string)
    (simulations : nat) : py matrix * generator :=
  (ret [map (fun k => Fin (IZR (Z.of_nat (4 + S g * k)))) (seq 0 horizon)], S g).

(** A fit result with the given residuals and conditional volatilities,
    on the percent scale. *)
Definition result_of (residuals volatilities : list float) : ARCHModelResult :=
  mkResult
    [ ("mu"%string, Fin 5); ("omega"%string, Fin 2);
      ("alpha[1]"%string, Fin (1 / 10)); ("beta[1]"%string, Fin (8 / 10)) ]
    (Fin 10) (Fin 12) (Fin (- 2))
    (length residuals) residuals volatilities 0%nat
    sample_forecast.

Definition sample_libraries : Libraries :=
  {| ARCHModel := list float;
     arch_model := fun y _ _ _ _ => ret y;
     arch_model_fit := fun y => ret (result_of y (map (fun _ => Fin 1) y));
     chi2_cdf := chi2_cdf_two_df;
     chi2_ppf := chi2_ppf_two_df;
     autocorr := fun _ _ => Fin (1 / 2);
     linalg_solve := solve_2x2 |}.

(** The same, with an [arch_model] that refuses a distribution it does not
    know, as arch does. *)
Definition checking_libraries : Libraries :=
  {| ARCHModel := list float;
     arch_model := fun y _ _ _ dist =>
       if existsb (String.eqb dist)
            ["normal"; "gaussian"; "t"; "studentst"; "skewt"; "ged"]%string
       then ret y
       else raise (ValueError "Unknown model type in dist"%string);
     arch_model_fit := fun y => ret (result_of y (map (fun _ => Fin 1) y));
     chi2_cdf := chi2_cdf_two_df;
     chi2_ppf := chi2_ppf_two_df;
     autocorr := fun _ _ => Fin (1 / 2);
     linalg_solve := solve_2x2 |}.

(** Three residuals with unit volatility: squared, 1, 4 and 9. *)
Definition three_point_fit : ARCHModelResult :=
  result_of [Fin 1; Fin 2; Fin 3] [Fin 1; Fin 1; Fin 1].

(** Three equal residuals: the lagged regressor is constant. *)
Definition constant_fit : ARCHModelResult :=
  result_of [Fin 1; Fin 1; Fin 1] [Fin 1; Fin 1; Fin 1].

(** A single residual. *)
Definition one_point_fit : ARCHModelResult := result_of [Fin 1] [Fin 1].

(** Fifty returns of one percent. *)
Definition fifty_returns : list float := repeat (Fin (1 / 100)) 50.

End Samples.
Import Samples.

(** ** data_utils.py: the other methods of DataProcessor *)

(** Ordering and absolute value on floats, as numpy has them. *)
Module FloatOrder.

(** [a < b]: false as soon as one side is NaN. *)
Definition flt (a b : float) : bool :=
  match a, b with
  | NaN, _ | _, NaN => false
  | Fin x, Fin y => if Rlt_dec x y then true else false
  | Fin _, PInf => true
  | Fin _, NInf => false
  | PInf, _ => false
  | NInf, NInf => false
  | NInf, _ => true
  end.

(** [a > b] *)
Definition fgt (a b : float) : bool := flt b a.

(** [np.abs] *)
Definition fabs (a : float) : float :=
  match a with
  | Fin x => Fin (Rabs x)
  | PInf | NInf => PInf
  | NaN => NaN
  end.

End FloatOrder.
Import FloatOrder.

(** The third-party functions [data_utils.py] calls. *)
Class DataLibraries : Type := {
  (** [yf.Ticker(ticker).history(start=, end=)] *)
  history : string -> string -> string -> py PriceFrame;
  (** [Series.mean()], [.std()], [.min()], [.max()] *)
  series_mean : list float -> float;
  series_std : list float -> float;
  series_min : list float -> float;
  series_max : list float -> float;
  (** [scipy.stats.skew], [.kurtosis], [.jarque_bera] *)
  stats_skew : list float -> py float;
  stats_kurtosis : list float -> py float;
  stats_jarque_bera : list float -> py (float * float);
  (** [Series.quantile(q)] *)
  quantile : list float -> float -> float;
  (** [scipy.stats.zscore] *)
  zscore : list float -> py (list float);
  (** [Series.ewm(span=).std()] *)
  ewm_std : nat -> list float -> list float
}.

Module DataUtils.

Local Open Scope py_scope.

(** [str(n)] for a Python int that is a natural number *)
Definition string_of_nat (n : nat) : string :=
  DecimalString.NilEmpty.string_of_uint (Nat.to_uint n).

(** [len(data)]: the rows of a frame, read off its first column. *)
Definition frame_rows (data : PriceFrame) : nat :=
  match data with
  | [] => 0%nat
  | c :: _ => length (snd c)
  end.

(** [data.empty] *)
Definition frame_empty (data : PriceFrame) : bool := (frame_rows data =? 0)%nat.

Definition row_has_nan (data : PriceFrame) (i : nat) : bool :=
  existsb (fun c => isnan (nth i (snd c) NaN)) data.

(** The rows [data.dropna()] keeps. *)
Definition complete_rows (data : PriceFrame) : list nat :=
  filter (fun i => negb (row_has_nan data i)) (seq 0 (frame_rows data)).

(** [data.dropna()]: every row holding a NaN goes, in all columns. *)
Definition frame_dropna (data : PriceFrame) : PriceFrame :=
  map (fun c => (fst c, map (fun i => nth i (snd c) NaN) (complete_rows data)))
    data.

(** Lines 37-59. *)
Definition fetch_stock_data {D : DataLibraries} (ticker start_date end_date : string)
  : outcome PriceFrame :=
  try_except ("Error fetching data for " ++ ticker ++ ": ")%string
    (data <- history ticker start_date end_date ;;
     if frame_empty data then
       raise (ValueError ("No data found for ticker " ++ ticker)%string)
     else if (frame_rows data <? 50)%nat then
       raise (ValueError
                ("Insufficient data for " ++ ticker ++ ". Found "
                 ++ string_of_nat (frame_rows data)
                 ++ " observations, need at least 50.")%string)
     else ret (frame_dropna data)).

Record ReturnsStatistics : Type := mkStatistics {
  stat_mean : float;
  stat_std : float;
  stat_min : float;
  stat_max : float;
  stat_skewness : float;
  stat_kurtosis : float;
  stat_jarque_bera : float * float;
  stat_count : nat;
  annual_mean : float;
  annual_std : float;
  sharpe_ratio : float
}.

(** Lines 119-142. *)
Definition calculate_returns_statistics {D : DataLibraries} (returns : list float)
  : outcome ReturnsStatistics :=
  try_except "Error calculating returns statistics: "%string
    (let returns_clean := dropna_values returns in
     let mean := series_mean returns_clean in
     let std := series_std returns_clean in
     let lo := series_min returns_clean in
     let hi := series_max returns_clean in
     skewness <- stats_skew returns_clean ;;
     kurtosis <- stats_kurtosis returns_clean ;;
     jarque_bera <- stats_jarque_bera returns_clean ;;
     let count := length returns_clean in
     let annual_mean := fmul mean (Fin 252) in
     let annual_std := fmul std (fsqrt (Fin 252)) in
     let sharpe_ratio := fdiv annual_mean annual_std in
     ret (mkStatistics mean std lo hi skewness kurtosis jarque_bera count
            annual_mean annual_std sharpe_ratio)).

Record OutlierReport : Type := mkOutliers {
  outliers : Series;
  num_outliers : nat;
  outlier_percentage : float;
  outlier_indices : list nat
}.

(** [s[mask]] with a boolean numpy array *)
Definition mask_select (s : Series) (mask : list bool) : py Series :=
  if (length mask =? length s)%nat then
    ret (map fst (filter snd (combine s mask)))
  else
    raise (IndexError
             ("Boolean index has wrong length: " ++ string_of_nat (length mask)
              ++ " instead of " ++ string_of_nat (length s))%string).

(** Lines 164-179: the rows picked by the method. *)
Definition select_outliers {D : DataLibraries} (returns_clean : Series)
    (method : string) (threshold : float) : py Series :=
  if String.eqb method "iqr"%string then
    let Q1 := quantile (values returns_clean) (Fin 0.25) in
    let Q3 := quantile (values returns_clean) (Fin 0.75) in
    let IQR := fsub Q3 Q1 in
    let lower_bound := fsub Q1 (fmul (Fin 1.5) IQR) in
    let upper_bound := fadd Q3 (fmul (Fin 1.5) IQR) in
    ret (filter (fun ix => flt (snd ix) lower_bound || fgt (snd ix) upper_bound)
           returns_clean)
  else if String.eqb method "zscore"%string then
    z <- zscore (values returns_clean) ;;
    let z_scores := map fabs z in
    mask_select returns_clean (map (fun v => fgt v threshold) z_scores)
  else
    raise (ValueError "Method must be 'iqr' or 'zscore'"%string).

Definition outliers_prefix : string := "Error detecting outliers: "%string.

(** Lines 161-190.  The percentage divides two Python ints: on an empty
    cleaned series that is a [ZeroDivisionError], whose text is
    "division by zero". *)
Definition detect_outliers {D : DataLibraries} (returns : list float)
    (method : string) (threshold : float) : outcome OutlierReport :=
  let returns_clean := dropna (of_column returns) in
  match select_outliers returns_clean method threshold with
  | inl e => caught outliers_prefix e
  | inr found =>
      if (length returns_clean =? 0)%nat then
        mkOutcome [(outliers_prefix ++ "division by zero")%string] None
      else
        returned
          (mkOutliers found (length found)
             (fmul (Fin (INR (length found) / INR (length returns_clean)))
                (Fin 100))
             (labels found))
  end.

Record VolatilityMeasures : Type := mkMeasures {
  historical_volatility : float;
  annualized_volatility : float;
  realized_volatility : float;
  ewma_volatility : float
}.

(** [s.iloc[-1]] *)
Definition iloc_last (l : list float) : py float :=
  match rev l with
  | [] => raise (IndexError "single positional indexer is out-of-bounds"%string)
  | x :: _ => ret x
  end.

(** Lines 269-296. *)
Definition calculate_volatility_measures {D : DataLibraries} (returns : list float)
  : outcome VolatilityMeasures :=
  try_except "Error calculating volatility measures: "%string
    (let returns_clean := dropna_values returns in
     let volatility := series_std returns_clean in
     let annual_volatility := fmul volatility (fsqrt (Fin 252)) in
     let realized_vol := fsqrt (np_sum (map fsq returns_clean)) in
     ewma_vol <- iloc_last (ewm_std 30 returns_clean) ;;
     ret (mkMeasures volatility annual_volatility realized_vol ewma_vol)).

End DataUtils.
Import DataUtils.

(** ** app.py and plotting_utils.py: the computations between the widgets *)

Module App.

(** How the analysis of [main] ends, lines 99-132: one of the two
    [st.error] stops, the exception handler of [main], or the results the
    tabs then display. *)
Inductive analysis : Type :=
| InsufficientData
| FitFailed
| Crashed (message : string)
| Analysed (returns_data : DataFrame) (model_fit : ARCHModelResult)
    (forecasts : option Forecast).

(** Lines 104-132.  [GARCHModel()] is a fresh instance; [fit_garch] is
    called with its defaults. *)
Definition run_analysis {D : DataLibraries} {L : Libraries}
    (ticker start_date end_date : string) (forecast_horizon : nat) : analysis :=
  match value (fetch_stock_data ticker start_date end_date) with
  | None => InsufficientData
  | Some stock_data =>
      if (frame_rows stock_data <? 100)%nat then InsufficientData
      else
        match value (calculate_returns stock_data) with
        | None => Crashed "'NoneType' object is not subscriptable"%string
        | Some returns_data =>
            match column "log_returns"%string returns_data with
            | None => Crashed "'log_returns'"%string
            | Some log_returns =>
                match value (snd (fit_garch init log_returns 1 1 "normal"%string)) with
                | None => FitFailed
                | Some model_fit =>
                    Analysed returns_data model_fit
                      (value (forecast_volatility (Some model_fit) forecast_horizon))
                end
            end
        end
  end.

(** app.py line 272, the ['Conditional_Variance'] column of the export. *)
Definition exported_conditional_variance (model_fit : ARCHModelResult) : list float :=
  map fsq (conditional_volatility model_fit).

(** plotting_utils.py line 254, the volatility the chart draws. *)
Definition plotted_conditional_volatility (model_fit : ARCHModelResult) : list float :=
  map (fun v => fdiv v (Fin 100)) (conditional_volatility model_fit).

End App.
Import App.

(** ** More sample inputs *)

Module MoreSamples.

(** Fifty closes, the third one missing. *)
Definition fifty_rows_one_missing : PriceFrame :=
  [ ("Close"%string, Fin 10 :: Fin 11 :: NaN :: repeat (Fin 12) 47);
    ("Volume"%string, repeat (Fin 1000) 50) ].

(** A hundred closes of 10. *)
Definition hundred_rows : PriceFrame :=
  [ ("Close"%string, map Fin (repeat 10 100)) ].

Definition sample_data_libraries (data : PriceFrame) : DataLibraries :=
  {| history := fun _ _ _ => ret data;
     series_mean := fun _ => Fin (1 / 1000);
     series_std := fun _ => Fin (1 / 100);
     series_min := fun _ => Fin (- 5 / 100);
     series_max := fun _ => Fin (5 / 100);
     stats_skew := fun _ => ret (Fin 0);
     stats_kurtosis := fun _ => ret (Fin 0);
     stats_jarque_bera := fun _ => ret (Fin 0, Fin 1);
     quantile := fun _ q => match q with Fin r => Fin (r - 1 / 2) | _ => NaN end;
     zscore := fun l => ret l;
     ewm_std := fun _ l => map (fun _ => Fin (1 / 100)) l |}.

(** [Series.std()]: the sample deviation, with divisor n - 1; NaN on fewer
    than two values. *)
Definition sample_std (l : list float) : float :=
  let mean := np_mean l in
  fsqrt (fdiv (np_sum (map (fun v => fsq (fsub v mean)) l))
           (Fin (INR (length l) - 1))).

(** The same stand-ins, the mean and the deviation computed from the
    data. *)
Definition descriptive_libraries : DataLibraries :=
  {| history := fun _ _ _ => ret hundred_rows;
     series_mean := np_mean;
     series_std := sample_std;
     series_min := fun _ => Fin (- 5 / 100);
     series_max := fun _ => Fin (5 / 100);
     stats_skew := fun _ => ret (Fin 0);
     stats_kurtosis := fun _ => ret (Fin 0);
     stats_jarque_bera := fun _ => ret (Fin 0, Fin 1);
     quantile := fun _ q => match q with Fin r => Fin (r - 1 / 2) | _ => NaN end;
     zscore := fun l => ret l;
     ewm_std := fun _ l => map (fun _ => Fin (1 / 100)) l |}.

(** Residuals 3, 4 over volatilities 1, 2, on the scale of the returns. *)
Definition small_fit : ARCHModelResult := result_of [Fin 3; Fin 4] [Fin 1; Fin 2].

(** The same fit on the percent scale. *)
Definition small_fit_percent : ARCHModelResult :=
  result_of [Fin 300; Fin 400] [Fin 100; Fin 200].

End MoreSamples.
Import MoreSamples.

(** * Properties *)

(** ** Facts about the float model *)

Lemma Rsign_pos (x : R) : 0 < x -> Rsign x = Gt.
Proof.
  intros Hx. unfold Rsign.
  destruct (total_order_T x 0) as [[Hlt | Heq] | Hgt]; try reflexivity; lra.
Qed.

Lemma Rsign_neg (x : R) : x < 0 -> Rsign x = Lt.
Proof.
  intros Hx. unfold Rsign.
  destruct (total_order_T x 0) as [[Hlt | Heq] | Hgt]; try reflexivity; lra.
Qed.

Lemma Rsign_zero : Rsign 0 = Eq.
Proof.
  unfold Rsign.
  destruct (total_order_T 0 0) as [[Hlt | Heq] | Hgt]; try reflexivity; lra.
Qed.

Lemma Rsign_nonzero (x : R) : x <> 0 -> Rsign x <> Eq.
Proof.
  intros Hx. unfold Rsign.
  destruct (total_order_T x 0) as [[Hlt | Heq] | Hgt]; congruence.
Qed.

Lemma fdiv_Fin (x y : R) : y <> 0 -> fdiv (Fin x) (Fin y) = Fin (x / y).
Proof.
  intros Hy. simpl. pose proof (Rsign_nonzero y Hy) as Hs.
  destruct (Rsign y); congruence.
Qed.

Lemma fdiv_NaN_r (a : float) : fdiv a NaN = NaN.
Proof. destruct a; reflexivity. Qed.

Lemma flog_pos (x : R) : 0 < x -> flog (Fin x) = Fin (ln x).
Proof. intros Hx. simpl. now rewrite Rsign_pos. Qed.

Lemma fsqrt_nonneg (x : R) : 0 <= x -> fsqrt (Fin x) = Fin (sqrt x).
Proof.
  intros Hx. simpl. unfold Rsign.
  destruct (total_order_T x 0) as [[Hlt | Heq] | Hgt]; try reflexivity; lra.
Qed.

(** ** Facts about Series *)

Section SeriesFacts.

Lemma series_from_cons (a : nat) (x : float) (xs : list float) :
  series_from a (x :: xs) = (a, x) :: series_from (S a) xs.
Proof. reflexivity. Qed.

Lemma labels_series_from (xs : list float) :
  forall a, labels (series_from a xs) = seq a (length xs).
Proof.
  induction xs as [| x xs IH]; intros a; [reflexivity |].
  rewrite series_from_cons. simpl. f_equal. apply IH.
Qed.

Lemma values_series_from (xs : list float) :
  forall a, values (series_from a xs) = xs.
Proof.
  induction xs as [| x xs IH]; intros a; [reflexivity |].
  rewrite series_from_cons. simpl. f_equal. apply IH.
Qed.

Lemma length_series_from (xs : list float) (a : nat) :
  length (series_from a xs) = length xs.
Proof.
  unfold series_from. rewrite length_combine, length_seq. apply Nat.min_id.
Qed.

Lemma smap_series_from (f : float -> float) (xs : list float) :
  forall a, smap f (series_from a xs) = series_from a (map f xs).
Proof.
  induction xs as [| x xs IH]; intros a; [reflexivity |].
  simpl map. rewrite !series_from_cons. simpl. f_equal. apply IH.
Qed.

Lemma zip_with_series_from (f : float -> float -> float) (xs : list float) :
  forall ys a, length ys = length xs ->
    zip_with f (series_from a xs) (series_from a ys) = series_from a (map2 f xs ys).
Proof.
  induction xs as [| x xs IH]; intros [| y ys] a Hlen; try discriminate;
    [reflexivity |].
  simpl map2. rewrite !series_from_cons. unfold zip_with. simpl. f_equal.
  apply IH. simpl in Hlen. lia.
Qed.

Lemma shift1_series_from (xs : list float) (a : nat) :
  shift1 (series_from a xs) = series_from a (firstn (length xs) (NaN :: xs)).
Proof.
  unfold shift1. rewrite labels_series_from, values_series_from, length_series_from.
  unfold series_from at 1. f_equal. f_equal.
  rewrite length_firstn. simpl. lia.
Qed.

(** Consecutive log returns as an elementwise operation on the column and
    its shift. *)
Lemma log_of_ratio_to_previous (rest : list float) :
  forall p,
    map flog (map2 fdiv rest (firstn (length rest) (p :: rest)))
    = consecutive_log_returns (p :: rest).
Proof.
  induction rest as [| q rest IH]; intros p; [reflexivity |].
  change (firstn (length (q :: rest)) (p :: q :: rest))
    with (p :: firstn (length rest) (q :: rest)).
  simpl map2. simpl map. rewrite IH. reflexivity.
Qed.

Lemma length_consecutive_log_returns (vs : list float) :
  length (consecutive_log_returns vs) = (length vs - 1)%nat.
Proof.
  induction vs as [| p [| q rest] IH]; try reflexivity.
  change (consecutive_log_returns (p :: q :: rest))
    with (flog (fdiv q p) :: consecutive_log_returns (q :: rest)).
  simpl length in *. rewrite IH. lia.
Qed.

(** Every row label of a Series on rows [a..] is at least [a]. *)
Lemma loc_below (xs : list float) :
  forall a i, (i < a)%nat -> loc (dropna (series_from a xs)) i = NaN.
Proof.
  induction xs as [| x xs IH]; intros a i Hi; [reflexivity |].
  rewrite series_from_cons. unfold dropna. simpl filter.
  destruct (negb (isnan x)).
  - unfold loc. simpl find.
    destruct (Nat.eqb_spec a i) as [-> | _]; [lia |].
    apply (IH (S a) i). lia.
  - apply (IH (S a) i). lia.
Qed.

(** Dropping the NaN rows and aligning again on all rows gives the values
    back: a dropped row comes back as NaN. *)
Lemma reindex_dropna (xs : list float) :
  forall a, reindex (seq a (length xs)) (dropna (series_from a xs)) = xs.
Proof.
  induction xs as [| x xs IH]; intros a; [reflexivity |].
  rewrite series_from_cons. simpl length. simpl seq. unfold reindex. simpl map.
  unfold dropna. simpl filter.
  destruct x as [r | | |]; simpl negb; cbv iota.
  4: { f_equal; [apply loc_below; lia | apply IH]. }
  all: f_equal;
    [unfold loc; simpl find; rewrite Nat.eqb_refl; reflexivity |];
    etransitivity; [| apply (IH (S a))]; unfold reindex; apply map_ext_in;
    intros i Hi; apply in_seq in Hi; unfold loc; simpl find;
    destruct (Nat.eqb_spec a i) as [-> | _]; [lia | reflexivity].
Qed.

Lemma insert_label_member (m : nat) :
  forall a x, In x (seq a m) -> insert_label x (seq a m) = seq a m.
Proof.
  induction m as [| m IH]; intros a x Hin; [destruct Hin |].
  simpl seq in *. simpl insert_label. destruct Hin as [<- | Hin].
  - now rewrite Nat.ltb_irrefl, Nat.eqb_refl.
  - pose proof Hin as Hin'. apply in_seq in Hin'.
    destruct (Nat.ltb_spec x a); [lia |].
    destruct (Nat.eqb_spec x a); [lia |].
    f_equal. now apply IH.
Qed.

Lemma insert_labels_members (m a : nat) (l : list nat) :
  incl l (seq a m) -> fold_right insert_label (seq a m) l = seq a m.
Proof.
  induction l as [| x l IH]; intros Hincl; [reflexivity |].
  simpl. rewrite IH.
  - apply insert_label_member. apply Hincl. now left.
  - intros y Hy. apply Hincl. now right.
Qed.

Lemma sort_seq (m : nat) :
  forall a, fold_right insert_label [] (seq a m) = seq a m.
Proof.
  induction m as [| m IH]; intros a; [reflexivity |].
  simpl. rewrite IH. destruct m as [| m]; [reflexivity |].
  simpl. destruct (Nat.ltb_spec a (S a)); [reflexivity | lia].
Qed.

Lemma labels_dropna_incl (s : Series) : incl (labels (dropna s)) (labels s).
Proof.
  intros i Hi. unfold labels, dropna in *.
  apply in_map_iff in Hi as [ix [<- Hin]]. apply filter_In in Hin as [Hin _].
  now apply in_map.
Qed.

Lemma labels_from1_incl (s : Series) : incl (labels (from1 s)) (labels s).
Proof.
  destruct s as [| ix s]; [intros i [] |]. intros i Hi. now right.
Qed.

End SeriesFacts.

(** ** calculate_returns *)

Section CalculateReturns.

Lemma ratio_to_previous_head (f : float -> float -> float) (p : float)
    (rest : list float) :
  map2 f (p :: rest) (firstn (length (p :: rest)) (NaN :: p :: rest))
  = f p NaN :: map2 f rest (firstn (length rest) (p :: rest)).
Proof. reflexivity. Qed.

Lemma length_ratio_to_previous (f : float -> float -> float) (rest : list float) :
  forall p, length (map2 f rest (firstn (length rest) (p :: rest))) = length rest.
Proof.
  induction rest as [| q rest IH]; intros p; [reflexivity |].
  change (firstn (length (q :: rest)) (p :: q :: rest))
    with (p :: firstn (length rest) (q :: rest)).
  simpl. f_equal. apply IH.
Qed.

Lemma length_shifted (xs : list float) :
  length (firstn (length xs) (NaN :: xs)) = length xs.
Proof. rewrite length_firstn. simpl. lia. Qed.

(** The frame [calculate_returns] builds from a price column: one row per
    price but the first, and the log returns of consecutive prices, a NaN
    one included, in ['log_returns']. *)
Lemma returns_frame_of_column (vs : list float) :
  df_index (returns_frame (of_column vs)) = seq 1 (length vs - 1)
  /\ column "log_returns"%string (returns_frame (of_column vs))
     = Some (consecutive_log_returns vs).
Proof.
  destruct vs as [| p rest]; [split; reflexivity |].
  unfold returns_frame, pct_change, of_column.
  rewrite shift1_series_from.
  rewrite zip_with_series_from by apply length_shifted.
  rewrite !smap_series_from.
  rewrite ratio_to_previous_head, fdiv_NaN_r. simpl map.
  rewrite log_of_ratio_to_previous.
  set (logs := consecutive_log_returns (p :: rest)).
  set (simple := map (fun x => fsub x (Fin 1))
                   (map2 fdiv rest (firstn (length rest) (p :: rest)))).
  rewrite !series_from_cons.
  change (dropna ((0%nat, NaN) :: series_from 1 logs))
    with (dropna (series_from 1 logs)).
  change (dropna ((0%nat, NaN) :: series_from 1 simple))
    with (dropna (series_from 1 simple)).
  change (from1 ((0%nat, p) :: series_from 1 rest)) with (series_from 1 rest).
  assert (Hlogs : length logs = length rest).
  { unfold logs. rewrite length_consecutive_log_returns. simpl. lia. }
  assert (Hsimple : length simple = length rest).
  { unfold simple. rewrite length_map. apply length_ratio_to_previous. }
  assert (Hidx :
    index_union
      (map (fun c : string * Series => labels (snd c))
         [ ("log_returns"%string, dropna (series_from 1 logs));
           ("simple_returns"%string, from1 (dropna (series_from 1 simple)));
           ("price"%string, series_from 1 rest) ])
    = seq 1 (length rest)).
  { unfold index_union. simpl map. simpl concat. rewrite app_nil_r.
    rewrite !fold_right_app, labels_series_from, sort_seq.
    rewrite (insert_labels_members (length rest) 1).
    - apply insert_labels_members. rewrite <- Hlogs, <- labels_series_from.
      apply labels_dropna_incl.
    - rewrite <- Hsimple, <- labels_series_from.
      intros i Hi. apply labels_dropna_incl. now apply labels_from1_incl. }
  unfold make_frame. rewrite Hidx.
  replace (length (p :: rest) - 1)%nat with (length rest) by (simpl; lia).
  split; [reflexivity |].
  unfold column. simpl. f_equal.
  rewrite <- Hlogs. apply reindex_dropna.
Qed.

Lemma lookup_absent {A} (k : string) (cols : list (string * A)) :
  ~ In k (map fst cols) -> lookup k cols = None.
Proof.
  induction cols as [| [k' v] cols IH]; intros Hk; [reflexivity |].
  simpl. destruct (String.eqb_spec k k') as [-> | _].
  - exfalso. apply Hk. now left.
  - apply IH. intros Hin. apply Hk. now right.
Qed.

Lemma iloc_last_column_snoc (front : PriceFrame) (name : string) (c : list float) :
  iloc_last_column (front ++ [(name, c)]) = ret c.
Proof. unfold iloc_last_column. now rewrite rev_unit. Qed.

(** Once a column is selected, nothing in [calculate_returns] can fail. *)
Lemma calculate_returns_selected (price_data : PriceFrame) (c : list float) :
  select_prices price_data = ret (of_column c) ->
  calculate_returns price_data = returned (returns_frame (of_column c)).
Proof. intros Hsel. unfold calculate_returns. now rewrite Hsel. Qed.

Lemma returns_computed_from_selected (price_data : PriceFrame) (c : list float) :
  select_prices price_data = ret (of_column c) ->
  returns_computed_from price_data c.
Proof.
  intros Hsel. exists (returns_frame (of_column c)). split.
  - now apply calculate_returns_selected.
  - apply returns_frame_of_column.
Qed.

(** A frame with at least one column always has a column selected. *)
Lemma select_prices_total (price_data : PriceFrame) :
  price_data <> [] -> exists c, select_prices price_data = ret (of_column c).
Proof.
  intros Hne. unfold select_prices.
  destruct (lookup "Adj Close"%string price_data) as [c |]; [now exists c |].
  destruct (lookup "Close"%string price_data) as [c |]; [now exists c |].
  destruct (exists_last Hne) as [front [[name c] ->]].
  exists c. now rewrite iloc_last_column_snoc.
Qed.

(** C10: the price column is chosen by a fixed precedence: 'Adj Close' when
    the frame has it, otherwise 'Close', otherwise the last column whatever
    its name; in each case the log returns are computed from that column
    without any message. *)
Theorem price_column_precedence (price_data : PriceFrame) :
  (forall c, lookup "Adj Close"%string price_data = Some c ->
             returns_computed_from price_data c)
  /\ (forall c, ~ In "Adj Close"%string (map fst price_data) ->
                lookup "Close"%string price_data = Some c ->
                returns_computed_from price_data c)
  /\ (forall front name c,
        ~ In "Adj Close"%string (map fst price_data) ->
        ~ In "Close"%string (map fst price_data) ->
        price_data = front ++ [(name, c)] ->
        returns_computed_from price_data c).
Proof.
  repeat split.
  - intros c Hadj. apply returns_computed_from_selected.
    unfold select_prices. now rewrite Hadj.
  - intros c Hadj Hclose. apply returns_computed_from_selected.
    unfold select_prices. now rewrite (lookup_absent _ _ Hadj), Hclose.
  - intros front name c Hadj Hclose Hlast. apply returns_computed_from_selected.
    unfold select_prices.
    rewrite (lookup_absent _ _ Hadj), (lookup_absent _ _ Hclose), Hlast.
    now rewrite iloc_last_column_snoc.
Qed.

(** On a frame whose only usable column is the unadjusted close, the
    returns are those of 'Close'. *)
Example returns_from_unadjusted_close :
  returns_computed_from frame_without_adjusted_close [Fin 3; Fin 6].
Proof. apply returns_computed_from_selected. reflexivity. Qed.

End CalculateReturns.

(** ** Validation in calculate_returns, and the round trip *)

Section ReturnsValidation.

(** C6, as amended: [calculate_returns] checks neither the sign of the
    prices nor how many observations remain.  It fails, by printing a
    message and returning [None], only on a frame without any column;
    on every other frame it returns the frame of returns, one row per price
    but the first, whatever the prices are. *)
Theorem calculate_returns_never_validates (price_data : PriceFrame) :
  (price_data = [] /\
   calculate_returns price_data
   = caught "Error calculating returns: "%string
       (IndexError "single positional indexer is out-of-bounds"%string))
  \/ (exists c df,
        select_prices price_data = ret (of_column c) /\
        calculate_returns price_data = returned df /\
        df_index df = seq 1 (length c - 1) /\
        column "log_returns"%string df = Some (consecutive_log_returns c)).
Proof.
  destruct price_data as [| col rest].
  - left. split; reflexivity.
  - right. destruct (select_prices_total (col :: rest)) as [c Hsel]; [discriminate |].
    exists c, (returns_frame (of_column c)). split; [exact Hsel |]. split.
    + now apply calculate_returns_selected.
    + apply returns_frame_of_column.
Qed.

(** C6, as stated, fails: a frame of three prices, one of them zero, is
    neither rejected for the zero price nor for being short; the call
    succeeds and reports the infinite returns the zero price produces. *)
Lemma zero_price_and_short_series_accepted :
  In (Fin 0) [Fin 100; Fin 0; Fin 50]
  /\ (length (consecutive_log_returns [Fin 100; Fin 0; Fin 50]) < 50)%nat
  /\ exists df,
       calculate_returns frame_with_zero_price = returned df /\
       value (calculate_returns frame_with_zero_price) <> None /\
       stdout (calculate_returns frame_with_zero_price) = [] /\
       column "log_returns"%string df = Some [NInf; PInf].
Proof.
  split; [right; now left |]. split; [simpl; lia |].
  exists (returns_frame (of_column [Fin 100; Fin 0; Fin 50])).
  assert (Hcall : calculate_returns frame_with_zero_price
                  = returned (returns_frame (of_column [Fin 100; Fin 0; Fin 50])))
    by (apply calculate_returns_selected; reflexivity).
  rewrite Hcall. repeat split; try discriminate.
  destruct (returns_frame_of_column [Fin 100; Fin 0; Fin 50]) as [_ Hcol].
  rewrite Hcol. f_equal. unfold consecutive_log_returns.
  rewrite fdiv_Fin by lra. replace (0 / 100) with 0 by lra.
  simpl. rewrite Rsign_zero. rewrite (Rsign_pos 50) by lra. reflexivity.
Qed.

(** The log returns of a strictly positive, finite price path. *)
Lemma log_returns_of_positive_prices (ps : list R) :
  forall p t,
    Forall (fun x => 0 < x) (p :: ps) ->
    (t < length ps)%nat ->
    nth t (consecutive_log_returns (map Fin (p :: ps))) NaN
    = Fin (ln (nth (S t) (p :: ps) 0 / nth t (p :: ps) 0)).
Proof.
  induction ps as [| q ps IH]; intros p t Hpos Ht; [simpl in Ht; lia |].
  inversion Hpos as [| ? ? Hp Hpos']; subst.
  inversion Hpos' as [| ? ? Hq _]; subst.
  change (consecutive_log_returns (map Fin (p :: q :: ps)))
    with (flog (fdiv (Fin q) (Fin p)) :: consecutive_log_returns (map Fin (q :: ps))).
  destruct t as [| t].
  - cbn [nth]. rewrite fdiv_Fin by lra. apply flog_pos.
    apply Rdiv_lt_0_compat; assumption.
  - change (nth (S t) (flog (fdiv (Fin q) (Fin p))
                         :: consecutive_log_returns (map Fin (q :: ps))) NaN)
      with (nth t (consecutive_log_returns (map Fin (q :: ps))) NaN).
    rewrite IH; [reflexivity | assumption | simpl in Ht; lia].
Qed.

(** Summing the log returns telescopes. *)
Lemma cumsum_of_log_returns (ps : list R) :
  forall p acc t,
    Forall (fun x => 0 < x) (p :: ps) ->
    (t < length ps)%nat ->
    nth t (cumsum_from (Fin acc) (consecutive_log_returns (map Fin (p :: ps)))) NaN
    = Fin (acc + ln (nth t ps 0) - ln p).
Proof.
  induction ps as [| q ps IH]; intros p acc t Hpos Ht; [simpl in Ht; lia |].
  inversion Hpos as [| ? ? Hp Hpos']; subst.
  inversion Hpos' as [| ? ? Hq _]; subst.
  change (consecutive_log_returns (map Fin (p :: q :: ps)))
    with (flog (fdiv (Fin q) (Fin p)) :: consecutive_log_returns (map Fin (q :: ps))).
  rewrite fdiv_Fin by lra.
  rewrite flog_pos by (apply Rdiv_lt_0_compat; assumption).
  unfold Rdiv. rewrite ln_mult by (try apply Rinv_0_lt_compat; assumption).
  rewrite ln_Rinv by assumption.
  cbn [cumsum_from fadd]. destruct t as [| t].
  - cbn [nth]. f_equal. lra.
  - cbn [nth]. rewrite IH; [f_equal; lra | assumption | simpl in Ht; lia].
Qed.

Lemma last_as_nth {A} (l : list A) (d : A) :
  last l d = nth (length l - 1) l d.
Proof.
  induction l as [| x [| y l] IH]; try reflexivity.
  change (last (x :: y :: l) d) with (last (y :: l) d). rewrite IH.
  replace (length (x :: y :: l) - 1)%nat with (S (length (y :: l) - 1))
    by (simpl; lia).
  reflexivity.
Qed.

Lemma length_cumsum_from (v : vector) :
  forall acc, length (cumsum_from acc v) = length v.
Proof.
  induction v as [| x v IH]; intros acc; [reflexivity |].
  simpl. f_equal. apply IH.
Qed.

(** C8: for a finite, strictly positive price column of length N,
    [calculate_returns] returns N - 1 log returns, the t-th being
    ln (price(t+1) / price(t)), and the exponential of their cumulative sum
    gives back every ratio price(t) / price(1); at the last row, the ratio
    price(N) / price(1).  (Floats are idealised as reals, so the round trip
    is exact.) *)
Theorem log_returns_round_trip (price_data : PriceFrame) (p1 : R) (ps : list R) :
  select_prices price_data = ret (of_column (map Fin (p1 :: ps))) ->
  Forall (fun x => 0 < x) (p1 :: ps) ->
  exists df lr,
    calculate_returns price_data = returned df /\
    column "log_returns"%string df = Some lr /\
    length lr = (length (p1 :: ps) - 1)%nat /\
    (forall t, (t < length ps)%nat ->
       nth t lr NaN = Fin (ln (nth (S t) (p1 :: ps) 0 / nth t (p1 :: ps) 0))) /\
    (forall t, (t < length ps)%nat ->
       fexp (nth t (np_cumsum lr) NaN) = Fin (nth (S t) (p1 :: ps) 0 / p1)) /\
    fexp (last (Fin 0 :: np_cumsum lr) NaN) = Fin (last (p1 :: ps) 0 / p1).
Proof.
  intros Hsel Hpos.
  assert (Hp1 : 0 < p1) by (now inversion Hpos).
  assert (Hround : forall t, (t < length ps)%nat ->
            fexp (nth t (np_cumsum (consecutive_log_returns (map Fin (p1 :: ps)))) NaN)
            = Fin (nth (S t) (p1 :: ps) 0 / p1)).
  { intros t Ht. unfold np_cumsum.
    rewrite cumsum_of_log_returns by assumption.
    assert (Hq : 0 < nth t ps 0).
    { inversion Hpos as [| ? ? _ Hps]; subst.
      rewrite Forall_forall in Hps. apply Hps. now apply nth_In. }
    simpl. f_equal. rewrite Rplus_0_l. unfold Rminus.
    rewrite exp_plus, exp_Ropp, !exp_ln by assumption. reflexivity. }
  exists (returns_frame (of_column (map Fin (p1 :: ps)))),
         (consecutive_log_returns (map Fin (p1 :: ps))).
  split; [now apply calculate_returns_selected |].
  split; [apply returns_frame_of_column |].
  split; [rewrite length_consecutive_log_returns, length_map; reflexivity |].
  split; [intros t Ht; now apply log_returns_of_positive_prices |].
  split; [exact Hround |].
  set (lr := consecutive_log_returns (map Fin (p1 :: ps))) in *.
  assert (Hlen : length (np_cumsum lr) = length ps).
  { unfold np_cumsum, lr.
    rewrite length_cumsum_from, length_consecutive_log_returns, length_map.
    simpl. lia. }
  destruct ps as [| q ps].
  - destruct (np_cumsum lr); [| discriminate].
    simpl. rewrite exp_0. f_equal. field. lra.
  - specialize (Hround (length ps)). 
    assert (Hlast_c : last (Fin 0 :: np_cumsum lr) NaN
                      = nth (length ps) (np_cumsum lr) NaN).
    { destruct (np_cumsum lr) as [| c cs] eqn:Hc; [discriminate |].
      change (last (Fin 0 :: c :: cs) NaN) with (last (c :: cs) NaN).
      rewrite last_as_nth. f_equal. simpl in Hlen. simpl. lia. }
    assert (Hlast_p : last (p1 :: q :: ps) 0 = nth (S (length ps)) (p1 :: q :: ps) 0).
    { rewrite last_as_nth. f_equal. }
    rewrite Hlast_c, Hlast_p. apply Hround. simpl. lia.
Qed.

End ReturnsValidation.

(** C8 on three prices rising by ten percent: two returns, and the round
    trip gives 121 / 100. *)
Lemma log_returns_round_trip_witness :
  select_prices rising_prices_frame = ret (of_column (map Fin [100; 110; 121]))
  /\ Forall (fun x => 0 < x) [100; 110; 121]
  /\ exists df lr,
       calculate_returns rising_prices_frame = returned df /\
       column "log_returns"%string df = Some lr /\
       length lr = 2%nat /\
       fexp (last (Fin 0 :: np_cumsum lr) NaN) = Fin (121 / 100).
Proof.
  assert (Hpos : Forall (fun x => 0 < x) [100; 110; 121])
    by (repeat constructor; lra).
  split; [reflexivity |]. split; [exact Hpos |].
  destruct (log_returns_round_trip rising_prices_frame 100 [110; 121]
              eq_refl Hpos)
    as [df [lr [Hcall [Hcol [Hlen [_ [_ Hround]]]]]]].
  exists df, lr. repeat split; assumption.
Defined.

(** ** fit_garch: the minimum number of observations *)

Section FitGarch.

Context {L : Libraries}.

Local Open Scope py_scope.

(** C7, as amended: [fit_garch] refuses a series for insufficient data
    exactly when it keeps fewer than 50 observations once its NaN are
    dropped: it then prints the insufficient-data message, returns [None]
    and leaves the instance untouched, no exception reaching the caller;
    from 50 observations on, the outcome is whatever the estimator, run on
    the cleaned series times 100, gives. *)
Theorem fit_garch_minimum_observations
    (self : self_state) (returns : list float) (p q : nat) (dist : string) :
  let returns_clean := dropna_values returns in
  ((length returns_clean < 50)%nat ->
     fit_garch self returns p q dist
     = (self, caught fit_prefix (ValueError insufficient_data_message)))
  /\ ((50 <= length returns_clean)%nat ->
        snd (fit_garch self returns p q dist)
        = try_except fit_prefix
            (m <- arch_model (scale_returns returns_clean) "GARCH"%string p q dist ;;
             arch_model_fit m)).
Proof.
  intros returns_clean. unfold fit_garch. fold returns_clean. split; intros Hn.
  - destruct (Nat.ltb_spec (length returns_clean) 50); [reflexivity | lia].
  - destruct (Nat.ltb_spec (length returns_clean) 50); [lia |].
    destruct (arch_model (scale_returns returns_clean) "GARCH"%string p q dist)
      as [e | m]; [reflexivity |].
    simpl. destruct (arch_model_fit m); reflexivity.
Qed.

(** The boundary: 49 observations, and a NaN that does not count. *)
Example fit_garch_49_observations (self : self_state) :
  snd (fit_garch self (NaN :: repeat (Fin 0) 49) 1 1 "normal"%string)
  = mkOutcome
      ["Error fitting GARCH model: Insufficient data for GARCH modeling (minimum 50 observations required)"%string]
      None.
Proof. reflexivity. Qed.

End FitGarch.

(** C7 at the boundary: fifty observations are enough, the estimator runs
    and its fit is returned. *)
Lemma fit_garch_minimum_observations_witness :
  (50 <= length (dropna_values fifty_returns))%nat
  /\ snd (fit_garch (L := sample_libraries) init fifty_returns 1 1 "normal"%string)
     = returned (result_of (scale_returns fifty_returns)
                   (map (fun _ => Fin 1) (scale_returns fifty_returns))).
Proof.
  assert (Hlen : (50 <= length (dropna_values fifty_returns))%nat)
    by (simpl; lia).
  split; [exact Hlen |].
  destruct (fit_garch_minimum_observations (L := sample_libraries)
              init fifty_returns 1 1 "normal"%string) as [_ Hrun].
  rewrite (Hrun Hlen). reflexivity.
Defined.

(** C7, as stated, fails: on 49 observations [fit_garch] does not fail
    with an error of any kind, it returns.  The caller is handed [None],
    after one printed line, and is handed the same [None] when arch refuses
    an unknown distribution on fifty observations: nothing in the returned
    value tells too few observations from an invalid input. *)
Lemma insufficient_data_returns_None :
  let short :=
    snd (fit_garch (L := checking_libraries) init (repeat (Fin (1 / 100)) 49)
           1 1 "normal"%string) in
  let refused :=
    snd (fit_garch (L := checking_libraries) init fifty_returns
           1 1 "cauchy"%string) in
  short
  = mkOutcome
      ["Error fitting GARCH model: Insufficient data for GARCH modeling (minimum 50 observations required)"%string]
      None
  /\ refused
     = mkOutcome ["Error fitting GARCH model: Unknown model type in dist"%string] None
  /\ value short = value refused
  /\ ~ exists kind_of : option ARCHModelResult -> error_kind,
         kind_of (value short) = InsufficientDataError /\
         kind_of (value refused) = InvalidInputError.
Proof.
  intros short refused.
  assert (Hshort : value short = None) by reflexivity.
  assert (Hrefused : value refused = None) by reflexivity.
  split; [reflexivity |]. split; [reflexivity |].
  split; [now rewrite Hshort, Hrefused |].
  intros [kind_of [H1 H2]]. rewrite Hshort in H1. rewrite Hrefused in H2.
  congruence.
Qed.

(** ** The instance and the fit objects across calls *)

Section InstanceState.

Context {L : Libraries}.

Lemma fit_garch_answer_independent (s1 s2 : self_state) (returns : list float)
    (p q : nat) (dist : string) :
  snd (fit_garch s1 returns p q dist) = snd (fit_garch s2 returns p q dist).
Proof.
  unfold fit_garch.
  destruct (length (dropna_values returns) <? 50)%nat; [reflexivity |].
  destruct (arch_model _ _ _ _ _) as [e | m]; [reflexivity |].
  destruct (arch_model_fit m); reflexivity.
Qed.

Lemma with_generator_same (fit : ARCHModelResult) :
  with_generator fit (generator_state fit) = fit.
Proof. now destruct fit. Qed.

Lemma nth_error_list_set {A} (v : A) (l : list A) :
  forall j a,
    nth_error (list_set j v l) a
    = if (a =? j)%nat
      then match nth_error l a with Some _ => Some v | None => None end
      else nth_error l a.
Proof.
  induction l as [| x l IH]; intros j a.
  - destruct a, j; simpl; try reflexivity. now destruct (a =? j)%nat.
  - destruct j as [| j], a as [| a]; simpl; try reflexivity. apply IH.
Qed.

(** A call reads the fit objects, never the instance. *)
Lemma step_reads_the_heap_only (w1 w2 : world) (c : call) :
  heap w1 = heap w2 ->
  snd (step w1 c) = snd (step w2 c)
  /\ heap (fst (step w1 c)) = heap (fst (step w2 c)).
Proof.
  intros Hheap. unfold step.
  destruct c as [returns p q dist | model_fit horizon | model_fit | model_fit
                | model_fit lags | model_fit lags];
    cbn [perform]; try (rewrite Hheap; split; reflexivity).
  rewrite (fit_garch_answer_independent (self_of w1) (self_of w2)), Hheap.
  destruct (value (snd (fit_garch (self_of w2) returns p q dist)));
    split; reflexivity.
Qed.

(** What a call leaves of a fit object. *)
Lemma object_after_step (w : world) (c : call) (a : ref) (fit : ARCHModelResult) :
  nth_error (heap w) a = Some fit ->
  exists g,
    nth_error (heap (fst (step w c))) a = Some (with_generator fit g)
    /\ ((forall h, c <> ForecastVolatility (Some a) h) -> g = generator_state fit).
Proof.
  intros Ha. unfold step.
  destruct c as [returns p q dist | model_fit horizon | model_fit | model_fit
                | model_fit lags | model_fit lags];
    cbn [perform];
    try (exists (generator_state fit); rewrite with_generator_same;
         split; [exact Ha | reflexivity]).
  - exists (generator_state fit). rewrite with_generator_same.
    split; [| reflexivity].
    destruct (value (snd (fit_garch (self_of w) returns p q dist)));
      cbn [fst heap]; [| exact Ha].
    rewrite nth_error_app1; [exact Ha |]. apply nth_error_Some. congruence.
  - cbn [fst heap]. destruct model_fit as [b |]; cbn [deref store].
    2: { exists (generator_state fit). rewrite with_generator_same.
         split; [exact Ha | reflexivity]. }
    unfold forecast_volatility_call, simulate.
    destruct (nth_error (heap w) b) as [fit_b |] eqn:Hb; cbn [snd].
    2: { exists (generator_state fit). rewrite with_generator_same.
         split; [exact Ha | reflexivity]. }
    rewrite nth_error_list_set. destruct (Nat.eqb_spec a b) as [-> | Hab].
    + rewrite Ha in Hb. injection Hb as <-. rewrite Ha.
      eexists. split; [reflexivity |].
      intros Hc. exfalso. exact (Hc horizon eq_refl).
    + exists (generator_state fit). rewrite with_generator_same.
      split; [exact Ha | reflexivity].
Qed.

Lemma handed_out_after_step (w : world) (c : call) :
  handed_out (fst (step w c)) = handed_out w ++ [snd (step w c)].
Proof. unfold step. now destruct (perform w c) as [[[m f] objects] a]. Qed.


End InstanceState.



(** ** Units of what is reported *)

Section Units.

Lemma dict_set_fresh (k : string) (v : float) (d : list (string * float)) :
  ~ In k (map fst d) -> dict_set k v d = d ++ [(k, v)].
Proof.
  induction d as [| [k' v'] d IH]; intros Hk; [reflexivity |].
  simpl. destruct (String.eqb_spec k k') as [-> | _].
  - exfalso. apply Hk. now left.
  - f_equal. apply IH. intros Hin. apply Hk. now right.
Qed.

Lemma dict_of_distinct_items (ps : list (string * float)) :
  forall d,
    NoDup (map fst (d ++ ps)) ->
    fold_left (fun d kv => dict_set (fst kv) (snd kv) d) ps d = d ++ ps.
Proof.
  induction ps as [| [k v] ps IH]; intros d Hnd; [now rewrite app_nil_r |].
  simpl fold_left. rewrite dict_set_fresh.
  - rewrite IH; rewrite <- app_assoc; [reflexivity | exact Hnd].
  - rewrite map_app in Hnd. simpl in Hnd. apply NoDup_remove_2 in Hnd.
    intros Hin. apply Hnd. apply in_or_app. now left.
Qed.

(** [get_model_summary] copies the parameters, the likelihood and the
    information criteria of the fit as they are. *)
Lemma get_model_summary_copies (fit : ARCHModelResult) :
  NoDup (map fst (params fit)) ->
  get_model_summary (Some fit)
  = returned (mkSummary (params fit) (aic fit) (bic fit) (loglikelihood fit)
                (nobs fit)).
Proof.
  intros Hnd. unfold get_model_summary. simpl.
  now rewrite (dict_of_distinct_items (params fit) []).
Qed.

(** [forecast_volatility] divides the variances by 100 squared and their
    square roots by 100. *)
Lemma forecast_volatility_rescales (fit : ARCHModelResult) (horizon : nat)
    (rows : matrix) (variance : vector) :
  fst (forecast fit (generator_state fit) horizon "simulation"%string 1000%nat)
  = ret (rows ++ [variance]) ->
  forecast_volatility (Some fit) horizon
  = returned (mkForecast (map (fun v => fdiv (fsqrt v) (Fin 100)) variance)
                (map (fun v => fdiv v (Fin 10000)) variance) horizon).
Proof.
  intros Hrun. unfold forecast_volatility, forecast_volatility_call, simulate.
  cbn [fst]. rewrite Hrun. cbn [bind ret].
  unfold last_row. rewrite rev_unit. cbn [bind ret try_except].
  now rewrite map_map.
Qed.

(** C4 at a fit on the percent scale (omega = 2, one-step variance 4):
    the forecast is brought back to the scale of the returns, variance
    4 / 10000 and volatility 2 / 100, but the summary reports omega, the
    mean, the likelihood and both criteria exactly as fitted; omega on the
    scale of the returns would be 2 / 10000. *)
Theorem summary_reports_percent_scale :
  forecast_volatility (Some three_point_fit) 1
  = returned (mkForecast [Fin (2 / 100)] [Fin (4 / 10000)] 1)
  /\ get_model_summary (Some three_point_fit)
     = returned (mkSummary (params three_point_fit) (Fin 10) (Fin 12) (Fin (- 2)) 3)
  /\ lookup "omega"%string (params three_point_fit) = Some (Fin 2)
  /\ original_units "omega"%string (Fin 2) = Fin (2 / 10000)
  /\ Fin 2 <> Fin (2 / 10000).
Proof.
  split.
  { rewrite (forecast_volatility_rescales three_point_fit 1 [] [Fin 4]) by reflexivity.
    cbn [map]. rewrite fsqrt_nonneg by lra. rewrite !fdiv_Fin by lra.
    replace 4 with (2 * 2) at 1 by lra. rewrite sqrt_square by lra. reflexivity. }
  split; [reflexivity |]. split; [reflexivity |]. split.
  - unfold original_units. cbn [String.eqb Ascii.eqb Bool.eqb]. apply fdiv_Fin. lra.
  - intros H. injection H as H. lra.
Qed.

End Units.

(** ** The Ljung-Box statistic *)

Section LjungBox.

Context {L : Libraries}.

Local Open Scope py_scope.

Lemma comprehension_ret {A B} (f : A -> py B) (g : A -> B) (l : list A) :
  (forall a, In a l -> f a = ret (g a)) ->
  comprehension f l = ret (map g l).
Proof.
  induction l as [| a l IH]; intros Hf; [reflexivity |].
  simpl. rewrite (Hf a) by now left. simpl.
  rewrite IH by (intros b Hb; apply Hf; now right). reflexivity.
Qed.

Lemma getitem_of_lags (rho : nat -> float) (lags i : nat) :
  (i < lags)%nat -> getitem (map rho (seq 1 lags)) i = ret (rho (S i)).
Proof.
  intros Hi. unfold getitem.
  rewrite (nth_error_nth' _ (rho 0%nat)) by now rewrite length_map, length_seq.
  rewrite (map_nth rho), seq_nth by assumption. reflexivity.
Qed.

(** The divisor [n - i - 1] of the code is [N - k] at the lag [k = i + 1]. *)
Lemma divisor_at_lag (n i : nat) :
  IZR (Z.of_nat n - Z.of_nat i - 1) = INR n - INR (S i).
Proof. rewrite !minus_IZR, <- !INR_IZR_INZ, S_INR. lra. Qed.

Lemma leading_factor (n : nat) :
  IZR (Z.of_nat n * (Z.of_nat n + 2)) = INR n * (INR n + 2).
Proof. rewrite mult_IZR, plus_IZR, <- !INR_IZR_INZ. reflexivity. Qed.

(** The body of the test computes the statistic of the specification. *)
Lemma ljung_box_body_formula (std_residuals : list float) (lags : nat) :
  let N := length std_residuals in
  let Q := ljung_box_statistic (autocorr (map fsq std_residuals)) N lags in
  (N = 0 \/ lags < N)%nat ->
  ljung_box_body std_residuals lags
  = ret (mkTest Q (fsub (Fin 1) (chi2_cdf Q lags)) lags (chi2_ppf (Fin 0.95) lags)).
Proof.
  intros N Q HN. unfold ljung_box_body. rewrite length_map. fold N.
  set (rho := autocorr (map fsq std_residuals)).
  rewrite (comprehension_ret _
             (fun i => fdiv (fsq (rho (S i)))
                         (Fin (IZR (Z.of_nat N - Z.of_nat i - 1))))).
  2: { intros i Hi. apply in_seq in Hi.
       rewrite getitem_of_lags by lia. cbn [bind ret]. unfold divide_by_int.
       destruct (Z.eqb_spec (Z.of_nat N - Z.of_nat i - 1) 0); [lia | reflexivity]. }
  simpl bind.
  assert (Hterms :
    map (fun i => fdiv (fsq (rho (S i))) (Fin (IZR (Z.of_nat N - Z.of_nat i - 1))))
      (seq 0 lags)
    = map (fun k => fdiv (fsq (rho k)) (Fin (INR N - INR k))) (seq 1 lags)).
  { rewrite <- seq_shift, map_map. apply map_ext. intros i.
    now rewrite divisor_at_lag. }
  rewrite Hterms, leading_factor. reflexivity.
Qed.

(** C2: on N standardized residuals, N > L + 1, the Ljung-Box test is
    computed on their squares: the statistic is
    Q = N (N + 2) * sum over k = 1 .. L of rho(k)^2 / (N - k), rho(k) being
    the lag-k autocorrelation of the squares, the p-value is
    1 - cdf(Q, L), the critical value the 0.95 quantile with L degrees of
    freedom; every divisor N - k is positive. *)
Theorem ljung_box_statistic_formula (fit : ARCHModelResult) (lags : nat) :
  let z := map2 fdiv (resid fit) (conditional_volatility fit) in
  let N := length z in
  let Q := ljung_box_statistic (autocorr (map fsq z)) N lags in
  (lags + 1 < N)%nat ->
  ljung_box_test (Some fit) lags
  = returned (mkTest Q (fsub (Fin 1) (chi2_cdf Q lags)) lags
                (chi2_ppf (Fin 0.95) lags))
  /\ (forall k, (1 <= k <= lags)%nat -> 1 < INR N - INR k).
Proof.
  intros z N Q HN. split.
  - unfold ljung_box_test, on_residuals. simpl. fold z.
    rewrite ljung_box_body_formula by (right; fold N; lia). reflexivity.
  - intros k [_ Hk]. rewrite <- minus_INR by lia.
    change 1 with (INR 1). apply lt_INR. lia.
Qed.

End LjungBox.

(** C2 on three residuals and one lag. *)
Lemma ljung_box_statistic_formula_witness :
  let z := map2 fdiv (resid three_point_fit) (conditional_volatility three_point_fit) in
  let Q := ljung_box_statistic
             (autocorr (Libraries := sample_libraries) (map fsq z)) 3 1 in
  (1 + 1 < 3)%nat
  /\ ljung_box_test (L := sample_libraries) (Some three_point_fit) 1
     = returned (mkTest Q (fsub (Fin 1) (chi2_cdf_two_df Q 1)) 1
                   (chi2_ppf_two_df (Fin 0.95) 1)).
Proof.
  intros z Q. split; [lia |].
  apply (ljung_box_statistic_formula (L := sample_libraries) three_point_fit 1).
  simpl. lia.
Defined.

(** ** The ARCH-LM regression *)

Section ArchLm.

Context {L : Libraries}.

Local Open Scope py_scope.

Lemma map2_of_maps {A B C D} (h : B -> C -> D) (f : A -> B) (g : A -> C)
    (l : list A) :
  map2 h (map f l) (map g l) = map (fun a => h (f a) (g a)) l.
Proof. induction l as [| a l IH]; [reflexivity |]. simpl. now rewrite IH. Qed.

Lemma map_const_seq {A} (c : A) (r : nat) :
  forall a, map (fun _ => c) (seq a r) = repeat c r.
Proof. induction r as [| r IH]; intros a; [reflexivity |]. simpl. now rewrite IH. Qed.

Lemma list_set_app {A} (l1 l2 : list A) (v : A) :
  forall j, list_set (length l1 + j) v (l1 ++ l2) = l1 ++ list_set j v l2.
Proof.
  induction l1 as [| x l1 IH]; intros j; [reflexivity |].
  simpl. f_equal. apply IH.
Qed.

Lemma nth_skipn {A} (d : A) (l : list A) :
  forall a t, nth t (skipn a l) d = nth (a + t) l d.
Proof.
  induction l as [| x l IH]; intros a t.
  - rewrite skipn_nil. now destruct t, a.
  - destruct a as [| a]; [reflexivity |]. simpl. apply IH.
Qed.

Lemma firstn_as_nth {A} (d : A) (l : list A) :
  forall r, (r <= length l)%nat ->
    firstn r l = map (fun t => nth t l d) (seq 0 r).
Proof.
  induction l as [| x l IH]; intros r Hr.
  - simpl in Hr. now replace r with 0%nat by lia.
  - destruct r as [| r]; [reflexivity |].
    simpl. f_equal. rewrite <- seq_shift, map_map.
    apply IH. simpl in Hr. lia.
Qed.

(** A slice read through [nth]. *)
Lemma slice_as_nth {A} (d : A) (l : list A) (a r : nat) :
  (a + r <= length l)%nat ->
  firstn r (skipn a l) = map (fun t => nth (a + t) l d) (seq 0 r).
Proof.
  intros Hlen. rewrite (firstn_as_nth d) by (rewrite length_skipn; lia).
  apply map_ext. intros t. apply nth_skipn.
Qed.

(** Row [t] of the array once the columns 1 .. k are filled: the lags
    1 .. k of observation [lags + t], ones elsewhere. *)
Lemma design_columns (squared : list float) (lags : nat) :
  let n := length squared in
  let r := (n - lags)%nat in
  let partial k t :=
    Fin 1 :: map (fun j => nth (lags + t - j) squared NaN) (seq 1 k)
             ++ repeat (Fin 1) (lags - k) in
  (lags <= n)%nat ->
  forall m k, (k + m = lags)%nat ->
    fold_left
      (fun X i =>
         set_column (i + 1) (slice (lags - i - 1) (n - i - 1) squared) X)
      (seq k m) (map (partial k) (seq 0 r))
    = map (partial lags) (seq 0 r).
Proof.
  intros n r partial Hn m. induction m as [| m IH]; intros k Hk.
  - simpl. replace k with lags by lia. reflexivity.
  - simpl fold_left. rewrite <- (IH (S k)) by lia. f_equal.
    unfold slice, set_column.
    replace (n - k - 1 - (lags - k - 1))%nat with r by (unfold r; lia).
    rewrite (slice_as_nth NaN) by (unfold r; fold n; lia).
    rewrite map2_of_maps. apply map_ext. intros t. unfold partial.
    replace (k + 1)%nat with (S k) by lia. cbn [list_set]. f_equal.
    rewrite seq_S, map_app. cbn [map]. rewrite <- app_assoc. cbn [app].
    replace (lags - k)%nat with (S (lags - S k)) by lia. cbn [repeat].
    set (filled := map (fun j => nth (lags + t - j) squared NaN) (seq 1 k)).
    assert (Hfilled : length filled = k)
      by (unfold filled; now rewrite length_map, length_seq).
    rewrite <- Hfilled at 1. rewrite <- (Nat.add_0_r (length filled)).
    rewrite list_set_app. cbn [list_set]. do 3 f_equal. lia.
Qed.

(** Lines 255-261 build the regression of each squared residual on an
    intercept and its own [lags] lags. *)
Lemma design_is_lagged_regression (squared : list float) (lags : nat) :
  (lags <= length squared)%nat ->
  design squared lags
  = ret (map (lagged_row squared lags) (seq 0 (length squared - lags)),
         skipn lags squared).
Proof.
  intros Hn. unfold design.
  destruct (Nat.ltb_spec (length squared) lags); [lia |].
  unfold ret. do 2 f_equal.
  pose proof (design_columns squared lags Hn lags 0%nat eq_refl) as Hfold.
  cbv zeta in Hfold.
  replace (ones (length squared - lags) (lags + 1))
    with (map (fun t : nat =>
                 Fin 1 :: map (fun j => nth (lags + t - j) squared NaN) (seq 1 0)
                          ++ repeat (Fin 1) (lags - 0))
            (seq 0 (length squared - lags))).
  - rewrite Hfold. apply map_ext. intros t. unfold lagged_row.
    rewrite Nat.sub_diag. cbn [repeat]. now rewrite app_nil_r.
  - unfold ones. rewrite Nat.sub_0_r, Nat.add_1_r. cbn [seq map app repeat].
    apply map_const_seq.
Qed.

Lemma nth_map_in {A B} (f : A -> B) (l : list A) (d : A) (d' : B) (j : nat) :
  (j < length l)%nat -> nth j (map f l) d' = f (nth j l d).
Proof.
  intros Hj. rewrite (nth_indep _ d' (f d)) by now rewrite length_map.
  apply map_nth.
Qed.

Lemma map2_as_nth {A B C} (f : A -> B -> C) (da : A) (db : B) :
  forall (n : nat) (u : list A) (v : list B),
    length u = n -> length v = n ->
    map2 f u v = map (fun i => f (nth i u da) (nth i v db)) (seq 0 n).
Proof.
  induction n as [| n IH]; intros [| a u] [| b v] Hu Hv;
    simpl in Hu, Hv; try discriminate; [reflexivity |].
  cbn [map2 seq map nth]. f_equal.
  rewrite <- seq_shift, map_map. apply IH; lia.
Qed.

Lemma list_as_nth {A} (d : A) (l : list A) :
  l = map (fun t => nth t l d) (seq 0 (length l)).
Proof.
  rewrite <- (firstn_as_nth d l (length l)) by lia. now rewrite firstn_all.
Qed.

Lemma length_lagged_row (squared : list float) (lags t : nat) :
  length (lagged_row squared lags t) = (lags + 1)%nat.
Proof. unfold lagged_row. simpl. rewrite length_map, length_seq. lia. Qed.

(** Entry [k] of a row of the array is regressor [k] of the regression. *)
Lemma nth_lagged_row (squared : list float) (lags t k : nat) :
  (k <= lags)%nat ->
  nth k (lagged_row squared lags t) NaN = regressor squared lags t k.
Proof.
  intros Hk. unfold lagged_row, regressor. destruct k as [| k]; [reflexivity |].
  cbn [nth]. rewrite (nth_map_in _ _ 0%nat) by (rewrite length_seq; lia).
  rewrite seq_nth by lia. reflexivity.
Qed.

Lemma dot_of_maps {A} (f g : A -> float) (l : list A) :
  dot (map f l) (map g l) = np_sum (map (fun a => fmul (f a) (g a)) l).
Proof. unfold dot. now rewrite map2_of_maps. Qed.

(** The regressand, observation by observation. *)
Lemma regressand_values (squared : list float) (lags : nat) :
  skipn lags squared
  = map (regressand squared lags) (seq 0 (length squared - lags)).
Proof.
  rewrite (list_as_nth NaN (skipn lags squared)) at 1.
  rewrite length_skipn. apply map_ext. intros t. apply nth_skipn.
Qed.

(** The columns of the array, observation by observation. *)
Lemma transposed_regressors (squared : list float) (lags r : nat) :
  transpose (lags + 1) (map (lagged_row squared lags) (seq 0 r))
  = map (fun j => map (fun t => regressor squared lags t j) (seq 0 r))
      (seq 0 (lags + 1)).
Proof.
  unfold transpose. apply map_ext_in. intros j Hj. apply in_seq in Hj.
  rewrite map_map. apply map_ext. intros t. apply nth_lagged_row. lia.
Qed.

(** Lines 263-269 are ordinary least squares on that regression: the
    system handed to the solver is made of the moments of the regressors
    and their cross moments with the regressand, and the R^2 is one minus
    the residual over the total sum of squares. *)
Lemma regression_is_ols (squared : list float) (lags : nat) (beta : vector) :
  let r := (length squared - lags)%nat in
  let X := map (lagged_row squared lags) (seq 0 r) in
  let y := skipn lags squared in
  normal_equations lags X y
  = (ols_moments squared lags r, ols_cross_moments squared lags r)
  /\ (length beta = (lags + 1)%nat ->
      r_squared_of X y beta = ols_r_squared squared lags r beta).
Proof.
  intros r X y. split.
  - unfold normal_equations, matmul, matvec, X, y.
    rewrite transposed_regressors, regressand_values. fold r.
    unfold ols_moments, ols_cross_moments, sum_over.
    rewrite !map_map. f_equal.
    + apply map_ext. intros j. rewrite map_map. apply map_ext. intros k.
      apply dot_of_maps.
    + apply map_ext. intros j. apply dot_of_maps.
  - intros Hbeta.
    assert (Hfitted : matvec X beta = map (ols_fitted squared lags beta) (seq 0 r)).
    { unfold matvec, X. rewrite map_map. apply map_ext. intros t.
      unfold dot, ols_fitted, sum_over. f_equal.
      rewrite (map2_as_nth fmul NaN NaN (lags + 1))
        by (assumption || apply length_lagged_row).
      apply map_ext_in. intros k Hk. apply in_seq in Hk.
      rewrite nth_lagged_row by lia. reflexivity. }
    unfold r_squared_of, ols_r_squared. rewrite Hfitted.
    unfold y. rewrite regressand_values. fold r.
    unfold np_mean, sum_over. rewrite map2_of_maps, !map_map, length_map, length_seq.
    reflexivity.
Qed.

(** C3, as amended: on N standardized residuals, N > L, the ARCH-LM test
    builds the regression of each squared residual on an intercept and its
    own L lags.  Whenever [np.linalg.solve] returns coefficients for the
    normal equations of that regression, the test returns the statistic
    (N - L) * R^2 of the least-squares fit, the p-value 1 - cdf(statistic, L)
    and the 0.95 quantile with L degrees of freedom.  When R^2 lies in
    [0, 1] the statistic is a non-negative number; the p-value then lies in
    [0, 1] if the distribution function returns a number in [0, 1] there,
    and is NaN if the distribution function is. *)
Theorem arch_lm_regression (fit : ARCHModelResult) (lags : nat) (beta : vector) :
  let z := map2 fdiv (resid fit) (conditional_volatility fit) in
  let squared := map fsq z in
  let N := length z in
  let r_squared := ols_r_squared squared lags (N - lags) beta in
  let stat := fmul (Fin (INR (N - lags))) r_squared in
  let p := fsub (Fin 1) (chi2_cdf stat lags) in
  (lags < N)%nat ->
  linalg_solve (ols_moments squared lags (N - lags))
    (ols_cross_moments squared lags (N - lags))
  = ret beta ->
  length beta = (lags + 1)%nat ->
  design squared lags
  = ret (map (lagged_row squared lags) (seq 0 (N - lags)), skipn lags squared)
  /\ skipn lags squared = map (regressand squared lags) (seq 0 (N - lags))
  /\ (forall t k, (k <= lags)%nat ->
        nth k (lagged_row squared lags t) NaN = regressor squared lags t k)
  /\ arch_lm_test (Some fit) lags
     = returned (mkTest stat p lags (chi2_ppf (Fin 0.95) lags))
  /\ (forall rr, r_squared = Fin rr -> 0 <= rr <= 1 ->
        exists s,
          stat = Fin s /\ 0 <= s
          /\ (forall c, chi2_cdf (Fin s) lags = Fin c -> 0 <= c <= 1 ->
                exists pv, p = Fin pv /\ 0 <= pv <= 1)
          /\ (chi2_cdf (Fin s) lags = NaN -> p = NaN)).
Proof.
  intros z squared N r_squared stat p HN Hsolve Hbeta.
  assert (Hlen : length squared = N) by (unfold squared; apply length_map).
  set (X := map (lagged_row squared lags) (seq 0 (N - lags))).
  set (y := skipn lags squared).
  assert (Hdesign : design squared lags = ret (X, y)).
  { rewrite design_is_lagged_regression by lia. unfold X, y. now rewrite Hlen. }
  destruct (regression_is_ols squared lags beta) as [Hequations Hr2].
  rewrite Hlen in Hequations, Hr2. fold X y in Hequations, Hr2.
  split; [exact Hdesign |]. split; [| split; [| split]].
  - unfold y. rewrite regressand_values. now rewrite Hlen.
  - intros t k Hk. now apply nth_lagged_row.
  - unfold arch_lm_test, on_residuals. simpl. fold z.
    unfold arch_lm_body. fold squared. rewrite Hdesign.
    unfold bind, ret at 1. cbv beta iota.
    change (fst (X, y)) with X. change (snd (X, y)) with y.
    rewrite Hequations. cbn [fst snd]. rewrite Hsolve, Hlen.
    unfold p, stat, r_squared. rewrite <- (Hr2 Hbeta). reflexivity.
  - intros rr Hrr [Hr0 Hr1]. unfold p, stat. rewrite Hrr. cbn [fmul].
    exists (INR (N - lags) * rr). split; [reflexivity |]. split; [| split].
    + apply Rmult_le_pos; [apply pos_INR | exact Hr0].
    + intros c Hc [Hc0 Hc1]. rewrite Hc. exists (1 + - c).
      split; [reflexivity | lra].
    + intros Hnan. now rewrite Hnan.
Qed.

End ArchLm.

(** ** Failures *)

Section Failures.

Context {L : Libraries}.

Local Open Scope py_scope.

Lemma try_except_cases {A} (prefix : string) (body : py A) :
  (exists a, try_except prefix body = returned a)
  \/ (exists e, try_except prefix body = caught prefix e).
Proof. destruct body as [e | a]; [right; now exists e | left; now exists a]. Qed.

(** What a method built on [calculate_residuals] can hand back. *)
Lemma on_residuals_cases {A} (model_fit : option ARCHModelResult) (prefix : string)
    (body : list float -> py (option A)) :
  let o := on_residuals model_fit prefix body in
  (exists a, o = returned a)
  \/ (exists e, o = caught residuals_prefix e)
  \/ (exists e, o = caught prefix e)
  \/ (o = mkOutcome [] None /\
      exists std, value (calculate_residuals model_fit) = Some std /\
                  body std = ret None).
Proof.
  unfold on_residuals.
  destruct (try_except_cases residuals_prefix
              (bind (getattr model_fit "resid"%string resid) (fun residuals =>
               bind (getattr model_fit "conditional_volatility"%string
                       conditional_volatility) (fun cv =>
               ret (map2 fdiv residuals cv))))) as [[std Hr] | [e Hr]];
    unfold calculate_residuals; rewrite Hr; simpl.
  - destruct (body std) as [e | [a |]] eqn:Hbody.
    + right. right. left. now exists e.
    + left. now exists a.
    + right. right. right. split; [reflexivity |]. now exists std.
  - right. left. now exists e.
Qed.

Lemma fit_garch_cases (self : self_state) (returns : list float) (p q : nat)
    (dist : string) :
  (exists fit, snd (fit_garch self returns p q dist) = returned fit)
  \/ (exists e, snd (fit_garch self returns p q dist) = caught fit_prefix e).
Proof.
  unfold fit_garch.
  destruct (length (dropna_values returns) <? 50)%nat;
    [right; eexists; reflexivity |].
  destruct (arch_model _ _ _ _ _) as [e | m]; [right; now exists e |].
  destruct (arch_model_fit m) as [e | fit];
    [right; now exists e | left; now exists fit].
Qed.

(** A comprehension stops at the first element that raises. *)
Lemma comprehension_raises {A B} (f : A -> py B) (e : exn) (before : list A)
    (a : A) (after : list A) :
  (forall x, In x before -> exists b, f x = ret b) ->
  f a = raise e ->
  comprehension f (before ++ a :: after) = raise e.
Proof.
  intros Hbefore Ha. induction before as [| x before IH]; simpl.
  - now rewrite Ha.
  - destruct (Hbefore x (or_introl eq_refl)) as [b ->]. simpl.
    rewrite IH; [reflexivity |]. intros y Hy. apply Hbefore. now right.
Qed.

(** With no more residuals than lags, the term of the lag N divides by
    the int zero. *)
Lemma ljung_box_body_divides_by_zero (std_residuals : list float) (lags : nat) :
  (1 <= length std_residuals <= lags)%nat ->
  ljung_box_body std_residuals lags
  = raise (ZeroDivisionError "float division by zero"%string).
Proof.
  intros [H1 Hl]. unfold ljung_box_body. rewrite length_map.
  set (n := length std_residuals) in *.
  set (rho := autocorr (map fsq std_residuals)).
  assert (Hseq : seq 0 lags = seq 0 (n - 1) ++ (n - 1)%nat :: seq n (lags - n)).
  { replace lags with ((n - 1) + S (lags - n))%nat at 1 by lia.
    rewrite seq_app. cbn [seq Nat.add]. now replace (S (n - 1)) with n by lia. }
  rewrite Hseq.
  rewrite (comprehension_raises _
             (ZeroDivisionError "float division by zero"%string));
    [reflexivity | |].
  - intros i Hi. apply in_seq in Hi. rewrite getitem_of_lags by lia.
    cbn [bind ret]. unfold divide_by_int.
    destruct (Z.eqb_spec (Z.of_nat n - Z.of_nat i - 1) 0); [lia |].
    eexists. reflexivity.
  - rewrite getitem_of_lags by lia. cbn [bind ret]. unfold divide_by_int.
    destruct (Z.eqb_spec (Z.of_nat n - Z.of_nat (n - 1) - 1) 0);
      [reflexivity | lia].
Qed.

(** C5, as amended: a failure inside a core operation never reaches the
    caller as an exception or with a kind.  First, the shapes: each
    operation either returns its result without printing, or returns
    [None] after printing one line made of a prefix and the text of the
    exception; the one other case is the ARCH-LM test returning [None]
    without a word, which happens on a [LinAlgError] of the solver and
    only then.  Second, failure by failure: too few observations, a
    refusal of arch, a fit that is [None], a forecast without rows, no more
    residuals than lags in the Ljung-Box test (a division by zero), fewer
    residuals than lags in the ARCH-LM test, a singular system, any other
    error of the solver, a frame without columns: what the caller is
    handed in each case. *)
Theorem failures_reach_the_caller_as_None :
  let missing name :=
    AttributeError ("'NoneType' object has no attribute '" ++ name ++ "'")%string in
  ((forall self returns p q dist,
       (exists fit, snd (fit_garch self returns p q dist) = returned fit)
       \/ (exists e, snd (fit_garch self returns p q dist) = caught fit_prefix e))
   /\ (forall model_fit horizon,
         (exists f, forecast_volatility model_fit horizon = returned f)
         \/ (exists e, forecast_volatility model_fit horizon = caught forecast_prefix e))
   /\ (forall model_fit,
         (exists s, get_model_summary model_fit = returned s)
         \/ (exists e, get_model_summary model_fit = caught summary_prefix e))
   /\ (forall model_fit,
         (exists r, calculate_residuals model_fit = returned r)
         \/ (exists e, calculate_residuals model_fit = caught residuals_prefix e))
   /\ (forall model_fit lags,
         (exists t, ljung_box_test model_fit lags = returned t)
         \/ (exists e, ljung_box_test model_fit lags = caught residuals_prefix e)
         \/ (exists e, ljung_box_test model_fit lags = caught ljung_box_prefix e))
   /\ (forall model_fit lags,
         (exists t, arch_lm_test model_fit lags = returned t)
         \/ (exists e, arch_lm_test model_fit lags = caught residuals_prefix e)
         \/ (exists e, arch_lm_test model_fit lags = caught arch_lm_prefix e)
         \/ (arch_lm_test model_fit lags = mkOutcome [] None /\
             exists std X y msg,
               value (calculate_residuals model_fit) = Some std /\
               design (map fsq std) lags = ret (X, y) /\
               linalg_solve (fst (normal_equations lags X y))
                 (snd (normal_equations lags X y))
               = raise (LinAlgError msg)))
   /\ (forall price_data,
         (exists df, calculate_returns price_data = returned df)
         \/ (exists e, calculate_returns price_data
                       = caught "Error calculating returns: "%string e)))
  /\ (forall self returns p q dist,
        let returns_clean := dropna_values returns in
        let estimate :=
          m <- arch_model (scale_returns returns_clean) "GARCH"%string p q dist ;;
          arch_model_fit m in
        ((length returns_clean < 50)%nat ->
           snd (fit_garch self returns p q dist)
           = caught fit_prefix (ValueError insufficient_data_message))
        /\ (forall e, (50 <= length returns_clean)%nat -> estimate = raise e ->
              snd (fit_garch self returns p q dist) = caught fit_prefix e)
        /\ (forall fit, (50 <= length returns_clean)%nat -> estimate = ret fit ->
              snd (fit_garch self returns p q dist) = returned fit))
  /\ (forall horizon,
        forecast_volatility None horizon
        = caught forecast_prefix (missing "forecast"%string))
  /\ (forall fit horizon,
        let simulated :=
          fst (forecast fit (generator_state fit) horizon
                 "simulation"%string 1000%nat) in
        (forall e, simulated = raise e ->
           forecast_volatility (Some fit) horizon = caught forecast_prefix e)
        /\ (simulated = ret [] ->
              forecast_volatility (Some fit) horizon
              = caught forecast_prefix
                  (IndexError "index -1 is out of bounds for axis 0 with size 0"%string))
        /\ (forall rows variance, simulated = ret (rows ++ [variance]) ->
              exists f, forecast_volatility (Some fit) horizon = returned f))
  /\ (get_model_summary None = caught summary_prefix (missing "params"%string)
      /\ forall fit, exists s, get_model_summary (Some fit) = returned s)
  /\ (calculate_residuals None = caught residuals_prefix (missing "resid"%string)
      /\ forall fit, exists r, calculate_residuals (Some fit) = returned r)
  /\ (forall lags,
        ljung_box_test None lags = caught residuals_prefix (missing "resid"%string))
  /\ (forall fit lags,
        let N := length (map2 fdiv (resid fit) (conditional_volatility fit)) in
        ((1 <= N <= lags)%nat ->
           ljung_box_test (Some fit) lags
           = caught ljung_box_prefix
               (ZeroDivisionError "float division by zero"%string))
        /\ ((N = 0 \/ lags < N)%nat ->
              exists t, ljung_box_test (Some fit) lags = returned t))
  /\ (forall lags,
        arch_lm_test None lags = caught residuals_prefix (missing "resid"%string))
  /\ (forall fit lags,
        let squared :=
          map fsq (map2 fdiv (resid fit) (conditional_volatility fit)) in
        ((length squared < lags)%nat ->
           arch_lm_test (Some fit) lags
           = caught arch_lm_prefix
               (ValueError "negative dimensions are not allowed"%string))
        /\ (forall X y, design squared lags = ret (X, y) ->
              let solution :=
                linalg_solve (fst (normal_equations lags X y))
                  (snd (normal_equations lags X y)) in
              (forall msg, solution = raise (LinAlgError msg) ->
                 arch_lm_test (Some fit) lags = mkOutcome [] None)
              /\ (forall e, solution = raise e ->
                    (forall msg, e <> LinAlgError msg) ->
                    arch_lm_test (Some fit) lags = caught arch_lm_prefix e)
              /\ (forall beta, solution = ret beta ->
                    exists t, arch_lm_test (Some fit) lags = returned t)))
  /\ (calculate_returns []
      = caught "Error calculating returns: "%string
          (IndexError "single positional indexer is out-of-bounds"%string)
      /\ forall price_data, price_data <> [] ->
           exists df, calculate_returns price_data = returned df).
Proof.
  intros missing. split.
  { split; [exact fit_garch_cases |].
    split; [intros; apply try_except_cases |].
    split; [intros; apply try_except_cases |].
    split; [intros; apply try_except_cases |].
    split; [| split; [| intros; apply try_except_cases]].
    - intros model_fit lags. unfold ljung_box_test.
      destruct (on_residuals_cases model_fit ljung_box_prefix
                  (fun std => bind (ljung_box_body std lags) (fun t => ret (Some t))))
        as [H | [H | [H | [_ [std [_ Hbody]]]]]]; auto.
      exfalso. destruct (ljung_box_body std lags); discriminate.
    - intros model_fit lags. unfold arch_lm_test.
      destruct (on_residuals_cases model_fit arch_lm_prefix
                  (fun std => arch_lm_body std lags))
        as [H | [H | [H | [Ho [std [Hstd Hbody]]]]]]; auto.
      right. right. right. split; [exact Ho |].
      unfold arch_lm_body in Hbody.
      destruct (design (map fsq std) lags) as [e | [X y]] eqn:Hdesign;
        [discriminate |].
      simpl in Hbody.
      destruct (linalg_solve _ _) as [e | beta] eqn:Hsolve; [| discriminate].
      destruct e as [m | m | m | m | m | m]; try discriminate.
      exists std, X, y, m. repeat split; assumption. }
  split.
  { intros self returns p q dist returns_clean estimate.
    unfold estimate, fit_garch. fold returns_clean.
    destruct (Nat.ltb_spec (length returns_clean) 50) as [Hlt | Hge].
    - split; [reflexivity |]. split; intros; lia.
    - split; [lia |].
      destruct (arch_model (scale_returns returns_clean) "GARCH"%string p q dist)
        as [e | m]; cbn [bind snd].
      + split; [intros e' _ He'; injection He' as <-; reflexivity |].
        intros fit _ Hfit. discriminate.
      + destruct (arch_model_fit m) as [e | fit]; cbn [snd].
        * split; [intros e' _ He'; injection He' as <-; reflexivity |].
          intros fit _ Hfit. discriminate.
        * split; [intros e _ He; discriminate |].
          intros fit' _ Hfit'. injection Hfit' as <-. reflexivity. }
  split; [reflexivity |]. split.
  { intros fit horizon simulated.
    unfold forecast_volatility, forecast_volatility_call, simulate.
    cbn [fst]. fold simulated. split; [| split].
    - intros e ->. reflexivity.
    - intros ->. reflexivity.
    - intros rows variance ->. cbn [bind ret]. unfold last_row.
      rewrite rev_unit. eexists. reflexivity. }
  split; [split; [reflexivity | intros fit; eexists; reflexivity] |].
  split; [split; [reflexivity | intros fit; eexists; reflexivity] |].
  split; [reflexivity |]. split.
  { intros fit lags N. unfold ljung_box_test, on_residuals.
    cbn [calculate_residuals try_except getattr bind ret value stdout returned].
    fold N. split.
    - intros HN. now rewrite ljung_box_body_divides_by_zero.
    - intros HN. rewrite ljung_box_body_formula by exact HN.
      eexists. reflexivity. }
  split; [reflexivity |]. split.
  { intros fit lags squared. unfold arch_lm_test, on_residuals.
    cbn [calculate_residuals try_except getattr bind ret value stdout returned].
    unfold arch_lm_body. fold squared. split.
    - intros Hn. unfold design.
      destruct (Nat.ltb_spec (length squared) lags); [reflexivity | lia].
    - intros X y Hdesign. rewrite Hdesign.
      change (bind (ret (X, y)) ?k) with (k (X, y)). cbv beta.
      change (fst (X, y)) with X. change (snd (X, y)) with y.
      split; [| split].
      + intros msg ->. reflexivity.
      + intros e -> Hkind.
        destruct e as [m | m | m | m | m | m]; try reflexivity.
        exfalso. exact (Hkind m eq_refl).
      + intros beta ->. eexists. reflexivity. }
  split; [reflexivity |].
  intros price_data Hne.
  destruct (select_prices_total price_data Hne) as [c Hsel].
  exists (returns_frame (of_column c)). now apply calculate_returns_selected.
Qed.

End Failures.

(** C5, as stated, fails.  The ARCH-LM test on a single residual with one
    lag regresses on no observation at all: the normal equations are the
    zero system, the solver raises [LinAlgError], and the test returns
    [None] without printing a word.  With two lags the same input fails
    for want of data.  Both failures hand the caller the same [None], so no
    reading of the returned value tells their kinds apart. *)
Lemma singular_matrix_swallowed_silently :
  let singular := arch_lm_test (L := sample_libraries) (Some one_point_fit) 1 in
  let too_short := arch_lm_test (L := sample_libraries) (Some one_point_fit) 2 in
  singular = mkOutcome [] None
  /\ too_short
     = caught arch_lm_prefix (ValueError "negative dimensions are not allowed"%string)
  /\ ~ exists kind_of : option TestResult -> error_kind,
         kind_of (value singular) = NumericalInstabilityError /\
         kind_of (value too_short) = InsufficientDataError.
Proof.
  intros singular too_short.
  assert (Hsingular : singular = mkOutcome [] None).
  { unfold singular, arch_lm_test, on_residuals. cbn -[fdiv fsq Rsign].
    unfold arch_lm_body. cbn -[fdiv fsq Rsign].
    replace (0 * 0 - 0 * 0) with 0 by lra. rewrite Rsign_zero. reflexivity. }
  assert (Hshort : too_short
                   = caught arch_lm_prefix
                       (ValueError "negative dimensions are not allowed"%string))
    by reflexivity.
  split; [exact Hsingular |]. split; [exact Hshort |].
  intros [kind_of [H1 H2]]. rewrite Hsingular in H1. rewrite Hshort in H2.
  simpl in H1, H2. congruence.
Qed.

(** C5 on a single residual and one lag: the Ljung-Box test divides by
    zero, prints the error under its prefix and returns [None]. *)
Lemma failures_reach_the_caller_as_None_witness :
  (1 <= length (map2 fdiv (resid one_point_fit)
                  (conditional_volatility one_point_fit)) <= 1)%nat
  /\ ljung_box_test (L := sample_libraries) (Some one_point_fit) 1
     = mkOutcome ["Error performing Ljung-Box test: float division by zero"%string]
         None.
Proof.
  assert (HN : (1 <= length (map2 fdiv (resid one_point_fit)
                               (conditional_volatility one_point_fit)) <= 1)%nat)
    by (simpl; lia).
  split; [exact HN |].
  pose proof (failures_reach_the_caller_as_None (L := sample_libraries)) as H.
  cbv zeta in H.
  destruct H as [_ [_ [_ [_ [_ [_ [_ [Hlb _]]]]]]]].
  destruct (Hlb one_point_fit 1%nat) as [Hzero _].
  rewrite (Hzero HN). reflexivity.
Defined.

(** *** The regression on three residuals and one lag *)

Lemma chi2_cdf_two_df_range (x : R) (df : nat) :
  exists c, chi2_cdf_two_df (Fin x) (S df) = Fin c /\ 0 <= c <= 1.
Proof.
  unfold chi2_cdf_two_df, Rsign.
  destruct (total_order_T x 0) as [[Hlt | Heq] | Hgt].
  - exists 0. split; [reflexivity | lra].
  - exists (1 - exp (- x / 2)). split; [reflexivity |].
    subst x. replace (- 0 / 2) with 0 by lra. rewrite exp_0. lra.
  - exists (1 - exp (- x / 2)). split; [reflexivity |].
    pose proof (exp_pos (- x / 2)) as Hpos.
    assert (Hlt : exp (- x / 2) < exp 0) by (apply exp_increasing; lra).
    rewrite exp_0 in Hlt. lra.
Qed.

Lemma three_point_squares :
  map fsq (map2 fdiv (resid three_point_fit) (conditional_volatility three_point_fit))
  = [Fin 1; Fin 4; Fin 9].
Proof.
  cbn [resid conditional_volatility three_point_fit result_of map2 map].
  rewrite !fdiv_Fin by lra. cbn [fsq fmul]. repeat f_equal; lra.
Qed.

(** The normal equations of 4 and 9 on an intercept and 1 and 4:
    intercept 7/3, slope 5/3. *)
Lemma three_point_solution :
  solve_2x2 (ols_moments [Fin 1; Fin 4; Fin 9] 1 2)
    (ols_cross_moments [Fin 1; Fin 4; Fin 9] 1 2)
  = ret [Fin (7 / 3); Fin (5 / 3)].
Proof.
  cbn -[Rsign]. rewrite Rsign_pos by lra.
  assert (H : forall a b c d : R, a = c -> b = d ->
                ret [Fin a; Fin b] = ret [Fin c; Fin d])
    by (intros; subst; reflexivity).
  apply H; field.
Qed.

(** Two points on a line: the fit is exact. *)
Lemma three_point_r_squared :
  ols_r_squared [Fin 1; Fin 4; Fin 9] 1 2 [Fin (7 / 3); Fin (5 / 3)] = Fin 1.
Proof.
  unfold ols_r_squared, sum_over, ols_fitted, sum_over. cbn -[Rsign fdiv].
  rewrite !(fdiv_Fin (0 + 4 + 9)) by lra. cbn -[Rsign fdiv].
  rewrite fdiv_Fin by lra. cbn. f_equal. field.
Qed.

(** C3, as stated, fails: three equal residuals are more than one lag
    needs, but the regressor is constant, the normal equations are
    singular, and the test returns no statistic at all. *)
Lemma singular_regression_returns_nothing :
  (1 < length (map2 fdiv (resid constant_fit)
                 (conditional_volatility constant_fit)))%nat
  /\ arch_lm_test (L := sample_libraries) (Some constant_fit) 1
     = mkOutcome [] None
  /\ value (arch_lm_test (L := sample_libraries) (Some constant_fit) 1) = None.
Proof.
  assert (Hnone : arch_lm_test (L := sample_libraries) (Some constant_fit) 1
                  = mkOutcome [] None).
  { unfold arch_lm_test, on_residuals.
    cbn [calculate_residuals try_except getattr bind ret value stdout returned].
    cbn [resid conditional_volatility constant_fit result_of map2].
    rewrite !fdiv_Fin by lra. unfold arch_lm_body. cbn -[Rsign].
    match goal with
    | |- context [Rsign ?d] => replace d with 0 by lra
    end.
    rewrite Rsign_zero. reflexivity. }
  split; [simpl; lia |]. split; [exact Hnone |]. now rewrite Hnone.
Qed.

(** C3 on three residuals and one lag: the regression is well-posed
    (R^2 = 1), the test returns, the statistic is non-negative and the
    p-value lies in [0, 1]. *)
Lemma arch_lm_regression_witness :
  (1 < 3)%nat
  /\ exists t s pv,
       arch_lm_test (L := sample_libraries) (Some three_point_fit) 1 = returned t /\
       lags_used t = 1%nat /\
       test_statistic t = Fin s /\ 0 <= s /\
       p_value t = Fin pv /\ 0 <= pv <= 1.
Proof.
  split; [lia |].
  destruct (arch_lm_regression (L := sample_libraries) three_point_fit 1
              [Fin (7 / 3); Fin (5 / 3)])
    as [_ [_ [_ [Htest Hbounds]]]].
  - simpl. lia.
  - rewrite three_point_squares. exact three_point_solution.
  - reflexivity.
  - destruct (Hbounds 1) as [s [Hs [Hs0 [Hp _]]]].
    + rewrite three_point_squares. exact three_point_r_squared.
    + lra.
    + destruct (chi2_cdf_two_df_range s 0) as [c [Hc Hc01]].
      destruct (Hp c Hc Hc01) as [pv [Hpv Hpv01]].
      eexists _, s, pv. split; [exact Htest |].
      split; [reflexivity |]. split; [exact Hs |]. split; [exact Hs0 |].
      split; [exact Hpv | exact Hpv01].
Defined.

(** ** fetch_stock_data *)

Section FetchStockData.

Context {D : DataLibraries}.

Lemma frame_rows_dropna (data : PriceFrame) :
  data <> [] -> frame_rows (frame_dropna data) = length (complete_rows data).
Proof.
  destruct data as [| c data]; [congruence |]. intros _.
  unfold frame_dropna. cbn [map frame_rows snd]. apply length_map.
Qed.

Lemma complete_rows_bound (data : PriceFrame) :
  (length (complete_rows data) <= frame_rows data)%nat.
Proof.
  unfold complete_rows.
  etransitivity; [apply filter_length_le |]. now rewrite length_seq.
Qed.

Lemma frame_dropna_complete (data : PriceFrame) (name : string) (c : list float) :
  In (name, c) (frame_dropna data) -> Forall (fun x => isnan x = false) c.
Proof.
  unfold frame_dropna. intros Hin.
  apply in_map_iff in Hin as [col [Hcol Hin]]. injection Hcol as _ <-.
  apply Forall_forall. intros x Hx.
  apply in_map_iff in Hx as [i [<- Hi]].
  unfold complete_rows in Hi. apply filter_In in Hi as [_ Hrow].
  apply negb_true_iff in Hrow. unfold row_has_nan in Hrow.
  destruct (isnan (nth i (snd col) NaN)) eqn:Hnan; [| reflexivity].
  assert (Hex : existsb (fun c0 => isnan (nth i (snd c0) NaN)) data = true).
  { apply existsb_exists. exists col. split; assumption. }
  congruence.
Qed.

(** X1: [fetch_stock_data] counts the rows before it cleans them.  A
    download of fewer than 50 rows is refused ([None]); one of 50 rows or
    more is returned without its rows holding a NaN, so the frame handed
    back has as many rows as the download has complete rows, possibly fewer
    than 50, and no NaN left. *)
Theorem fetch_stock_data_counts_rows_before_cleaning
    (ticker start_date end_date : string) (data : PriceFrame) :
  history ticker start_date end_date = ret data ->
  ((frame_rows data < 50)%nat ->
     value (fetch_stock_data ticker start_date end_date) = None)
  /\ ((50 <= frame_rows data)%nat ->
        fetch_stock_data ticker start_date end_date = returned (frame_dropna data)
        /\ frame_rows (frame_dropna data) = length (complete_rows data)
        /\ (frame_rows (frame_dropna data) <= frame_rows data)%nat
        /\ (forall name c, In (name, c) (frame_dropna data) ->
              Forall (fun x => isnan x = false) c)).
Proof.
  intros Hdata. unfold fetch_stock_data, frame_empty. rewrite Hdata.
  cbn [bind ret]. split; intros Hrows.
  - destruct (Nat.eqb_spec (frame_rows data) 0); [reflexivity |].
    destruct (Nat.ltb_spec (frame_rows data) 50); [reflexivity | lia].
  - destruct (Nat.eqb_spec (frame_rows data) 0); [lia |].
    destruct (Nat.ltb_spec (frame_rows data) 50); [lia |].
    assert (Hne : data <> []) by (intros ->; simpl in Hrows; lia).
    split; [reflexivity |]. split; [now apply frame_rows_dropna |]. split.
    + rewrite frame_rows_dropna by assumption. apply complete_rows_bound.
    + apply frame_dropna_complete.
Qed.

End FetchStockData.

(** X1 on fifty downloaded rows, one of them incomplete: forty-nine come
    back. *)
Lemma fetch_stock_data_counts_rows_before_cleaning_witness :
  history (DataLibraries := sample_data_libraries fifty_rows_one_missing)
    "ACME"%string "2024-01-01"%string "2024-03-15"%string
  = ret fifty_rows_one_missing
  /\ (50 <= frame_rows fifty_rows_one_missing)%nat
  /\ fetch_stock_data (D := sample_data_libraries fifty_rows_one_missing)
       "ACME"%string "2024-01-01"%string "2024-03-15"%string
     = returned (frame_dropna fifty_rows_one_missing)
  /\ frame_rows (frame_dropna fifty_rows_one_missing) = 49%nat.
Proof.
  assert (Hrows : (50 <= frame_rows fifty_rows_one_missing)%nat)
    by (simpl; lia).
  split; [reflexivity |]. split; [exact Hrows |].
  destruct (fetch_stock_data_counts_rows_before_cleaning
              (D := sample_data_libraries fifty_rows_one_missing)
              "ACME"%string "2024-01-01"%string "2024-03-15"%string
              fifty_rows_one_missing eq_refl) as [_ Hlong].
  destruct (Hlong Hrows) as [Hcall [Hcount _]].
  split; [exact Hcall |]. rewrite Hcount. reflexivity.
Defined.

(** ** The other columns of the returns frame *)

Section ReturnsColumns.

Lemma loc_series_from_below (xs : list float) :
  forall a i, (i < a)%nat -> loc (series_from a xs) i = NaN.
Proof.
  induction xs as [| x xs IH]; intros a i Hi; [reflexivity |].
  rewrite series_from_cons. unfold loc. simpl find.
  destruct (Nat.eqb_spec a i) as [-> | _]; [lia |].
  apply (IH (S a) i). lia.
Qed.

Lemma reindex_series_from (xs : list float) :
  forall a, reindex (seq a (length xs)) (series_from a xs) = xs.
Proof.
  induction xs as [| x xs IH]; intros a; [reflexivity |].
  rewrite series_from_cons. simpl length. simpl seq. unfold reindex. simpl map.
  f_equal; [unfold loc; simpl find; now rewrite Nat.eqb_refl |].
  etransitivity; [| apply (IH (S a))]. unfold reindex. apply map_ext_in.
  intros i Hi. apply in_seq in Hi. unfold loc. simpl find.
  destruct (Nat.eqb_spec a i) as [-> | _]; [lia | reflexivity].
Qed.

Lemma dropna_without_nan (xs : list float) :
  forall a, Forall (fun x => isnan x = false) xs ->
    dropna (series_from a xs) = series_from a xs.
Proof.
  induction xs as [| x xs IH]; intros a Hxs; [reflexivity |].
  inversion Hxs as [| ? ? Hx Hxs']; subst.
  rewrite series_from_cons. unfold dropna. simpl filter. rewrite Hx. simpl.
  f_equal. apply IH. assumption.
Qed.

(** The frame of returns, column by column, before any alignment is
    carried out. *)
Lemma returns_frame_columns (p : float) (rest : list float) :
  let idx := seq 1 (length rest) in
  let logs := consecutive_log_returns (p :: rest) in
  let simple := map (fun x => fsub x (Fin 1))
                  (map2 fdiv rest (firstn (length rest) (p :: rest))) in
  returns_frame (of_column (p :: rest))
  = mkFrame idx
      [ ("log_returns"%string, reindex idx (dropna (series_from 1 logs)));
        ("simple_returns"%string,
           reindex idx (from1 (dropna (series_from 1 simple))));
        ("price"%string, reindex idx (series_from 1 rest)) ].
Proof.
  intros idx logs simple.
  unfold returns_frame, pct_change, of_column.
  rewrite shift1_series_from.
  rewrite zip_with_series_from by apply length_shifted.
  rewrite !smap_series_from.
  rewrite ratio_to_previous_head, fdiv_NaN_r. simpl map.
  rewrite log_of_ratio_to_previous. fold logs. fold simple.
  rewrite !series_from_cons.
  change (dropna ((0%nat, NaN) :: series_from 1 logs))
    with (dropna (series_from 1 logs)).
  change (dropna ((0%nat, NaN) :: series_from 1 simple))
    with (dropna (series_from 1 simple)).
  change (from1 ((0%nat, p) :: series_from 1 rest)) with (series_from 1 rest).
  assert (Hlogs : length logs = length rest).
  { unfold logs. rewrite length_consecutive_log_returns. simpl. lia. }
  assert (Hsimple : length simple = length rest).
  { unfold simple. rewrite length_map. apply length_ratio_to_previous. }
  unfold make_frame.
  assert (Hidx :
    index_union
      (map (fun c : string * Series => labels (snd c))
         [ ("log_returns"%string, dropna (series_from 1 logs));
           ("simple_returns"%string, from1 (dropna (series_from 1 simple)));
           ("price"%string, series_from 1 rest) ])
    = idx).
  { unfold index_union, idx. simpl map. simpl concat. rewrite app_nil_r.
    rewrite !fold_right_app, labels_series_from, sort_seq.
    rewrite (insert_labels_members (length rest) 1).
    - apply insert_labels_members. rewrite <- Hlogs, <- labels_series_from.
      apply labels_dropna_incl.
    - rewrite <- Hsimple, <- labels_series_from.
      intros i Hi. apply labels_dropna_incl. now apply labels_from1_incl. }
  rewrite Hidx. reflexivity.
Qed.

(** Simple returns of a positive price path are finite. *)
Lemma simple_returns_of_positive_prices (ps : list R) :
  forall p,
    Forall (fun x => 0 < x) (p :: ps) ->
    let simple := map (fun x => fsub x (Fin 1))
                    (map2 fdiv (map Fin ps)
                       (firstn (length (map Fin ps)) (Fin p :: map Fin ps))) in
    Forall (fun x => isnan x = false) simple
    /\ forall t, (t < length ps)%nat ->
         nth t simple NaN = Fin (nth t ps 0 / nth t (p :: ps) 0 - 1).
Proof.
  induction ps as [| q ps IH]; intros p Hpos simple.
  - split; [constructor | intros t Ht; simpl in Ht; lia].
  - inversion Hpos as [| ? ? Hp Hpos']; subst.
    destruct (IH q Hpos') as [IHnan IHnth].
    assert (Hhead : simple
                    = Fin (q / p - 1)
                      :: map (fun x => fsub x (Fin 1))
                           (map2 fdiv (map Fin ps)
                              (firstn (length (map Fin ps)) (Fin q :: map Fin ps)))).
    { unfold simple.
      change (firstn (length (map Fin (q :: ps))) (Fin p :: map Fin (q :: ps)))
        with (Fin p :: firstn (length (map Fin ps)) (Fin q :: map Fin ps)).
      cbn [map map2]. rewrite fdiv_Fin by lra. reflexivity. }
    rewrite Hhead. split.
    + constructor; [reflexivity | exact IHnan].
    + intros [| t] Ht; [reflexivity |].
      cbn [nth]. apply IHnth. simpl in Ht. lia.
Qed.

(** X2: beside the log returns, the frame of [calculate_returns] carries
    the prices from the second one on in ['price'], and in
    ['simple_returns'] a NaN in its first row: the slice "to align with
    log returns" removes the first simple return, already aligned, so the
    row of the second price has none; from the third price on the row
    holds price(t) / price(t-1) - 1. *)
Theorem returns_frame_price_and_simple_returns (p : R) (ps : list R) :
  Forall (fun x => 0 < x) (p :: ps) ->
  let df := returns_frame (of_column (map Fin (p :: ps))) in
  column "price"%string df = Some (map Fin ps)
  /\ exists sr,
       column "simple_returns"%string df = Some sr /\
       length sr = length ps /\
       (ps <> [] -> nth 0 sr (Fin 0) = NaN) /\
       (forall t, (1 <= t < length ps)%nat ->
          nth t sr NaN = Fin (nth (S t) (p :: ps) 0 / nth t (p :: ps) 0 - 1)).
Proof.
  intros Hpos df. unfold df. change (map Fin (p :: ps)) with (Fin p :: map Fin ps).
  rewrite returns_frame_columns. cbv zeta. unfold column. cbn [df_columns lookup].
  cbn [String.eqb Ascii.eqb Bool.eqb]. split.
  - f_equal. apply reindex_series_from.
  - destruct (simple_returns_of_positive_prices ps p Hpos) as [Hnan Hnth].
    cbv zeta in Hnan, Hnth.
    set (simple := map (fun x => fsub x (Fin 1))
                     (map2 fdiv (map Fin ps)
                        (firstn (length (map Fin ps)) (Fin p :: map Fin ps)))) in *.
    assert (Hlen : length simple = length ps).
    { unfold simple. rewrite length_map, length_ratio_to_previous.
      apply length_map. }
    rewrite dropna_without_nan by assumption.
    rewrite length_map. rewrite <- Hlen.
    destruct simple as [| x xs] eqn:Hsimple.
    + exists []. split; [reflexivity |]. split; [reflexivity |].
      split; [intros Hne; destruct ps; [congruence | discriminate] |].
      intros t Ht. simpl in Ht. lia.
    + exists (NaN :: xs). rewrite series_from_cons. cbn [from1 tl length seq].
      split.
      { f_equal. unfold reindex. cbn [map]. f_equal.
        - apply loc_series_from_below. lia.
        - apply (reindex_series_from xs 2). }
      split; [reflexivity |]. split; [reflexivity |].
      intros [| t] [Ht1 Ht2]; [lia |].
      simpl in Hlen, Ht2.
      cbn [nth]. specialize (Hnth (S t) ltac:(lia)). cbn [nth] in Hnth.
      exact Hnth.
Qed.

End ReturnsColumns.

(** X2 on three prices rising by ten percent. *)
Lemma returns_frame_price_and_simple_returns_witness :
  Forall (fun x => 0 < x) [100; 110; 121]
  /\ column "price"%string (returns_frame (of_column (map Fin [100; 110; 121])))
     = Some [Fin 110; Fin 121].
Proof.
  assert (Hpos : Forall (fun x => 0 < x) [100; 110; 121])
    by (repeat constructor; lra).
  split; [exact Hpos |].
  destruct (returns_frame_price_and_simple_returns 100 [110; 121] Hpos)
    as [Hprice _].
  exact Hprice.
Defined.

(** ** Descriptive statistics, outliers and volatility measures *)

Section DescriptiveStatistics.

Context {D : DataLibraries}.

Lemma sqrt_252 : 0 < sqrt 252 /\ sqrt 252 * sqrt 252 = 252.
Proof.
  split; [apply sqrt_lt_R0; lra | apply sqrt_sqrt; lra].
Qed.

(** X3: the annualised figures of [calculate_returns_statistics].  When
    the mean m and the standard deviation s of the cleaned returns are
    finite and scipy's three statistics return, the call returns: the
    count of the cleaned returns, the mean times 252, the deviation times
    the square root of 252, and a Sharpe ratio (no risk-free rate) of
    sqrt(252) * m / s.  A zero deviation raises nothing: the call returns
    all the same, the ratio being an infinity of the sign of the mean, or
    NaN for a zero mean. *)
Theorem annualised_statistics (returns : list float) (m s : R)
    (skewness kurtosis : float) (jarque_bera : float * float) :
  let returns_clean := dropna_values returns in
  series_mean returns_clean = Fin m ->
  series_std returns_clean = Fin s ->
  stats_skew returns_clean = ret skewness ->
  stats_kurtosis returns_clean = ret kurtosis ->
  stats_jarque_bera returns_clean = ret jarque_bera ->
  exists stats,
    calculate_returns_statistics returns = returned stats
    /\ stat_count stats = length returns_clean
    /\ stat_mean stats = Fin m
    /\ stat_std stats = Fin s
    /\ annual_mean stats = Fin (m * 252)
    /\ annual_std stats = Fin (s * sqrt 252)
    /\ (s <> 0 -> sharpe_ratio stats = Fin (sqrt 252 * (m / s)))
    /\ (s = 0 ->
          sharpe_ratio stats
          = match Rsign m with Gt => PInf | Lt => NInf | Eq => NaN end).
Proof.
  intros returns_clean Hm Hs Hskew Hkurt Hjb.
  destruct sqrt_252 as [Hpos Hsq].
  unfold calculate_returns_statistics. fold returns_clean.
  rewrite Hm, Hs, Hskew, Hkurt, Hjb.
  cbn [bind ret try_except returned].
  rewrite fsqrt_nonneg by lra. cbn [fmul].
  eexists. split; [reflexivity |].
  cbn [stat_count stat_mean stat_std annual_mean annual_std sharpe_ratio].
  repeat split.
  - intros Hs0.
    rewrite fdiv_Fin by (apply Rmult_integral_contrapositive; lra).
    f_equal. rewrite <- Hsq at 1. field. lra.
  - intros ->. replace (0 * sqrt 252) with 0 by lra.
    cbn [fdiv]. rewrite Rsign_zero. unfold Rsign.
    destruct (total_order_T (m * 252) 0) as [[H1 | H1] | H1];
      destruct (total_order_T m 0) as [[H2 | H2] | H2];
      try reflexivity; lra.
Qed.

Lemma sum_of_squares (rs : list R) :
  forall a,
    fold_left fadd (map fsq (map Fin rs)) (Fin a)
    = Fin (a + fold_right (fun r acc => r * r + acc) 0 rs).
Proof.
  induction rs as [| r rs IH]; intros a.
  - simpl. f_equal. lra.
  - cbn [map fold_left fsq fmul fadd fold_right]. rewrite IH. f_equal. lra.
Qed.

Lemma sum_of_squares_nonneg (rs : list R) :
  0 <= fold_right (fun r acc => r * r + acc) 0 rs.
Proof.
  induction rs as [| r rs IH]; simpl; [lra |].
  pose proof (Rle_0_sqr r) as Hr. unfold Rsqr in Hr. lra.
Qed.

(** X4: on returns that are finite once the NaN are dropped,
    [calculate_volatility_measures] reports a realized volatility that is
    a finite, non-negative number whose square is the sum of the squared
    returns, and an annualised volatility of sqrt(252) times the historical
    one.  When the exponentially weighted deviation has no last value, as
    on an empty series, the call prints the index error and returns
    [None]. *)
Theorem volatility_measures_of_finite_returns (returns : list float) (rs : list R) :
  dropna_values returns = map Fin rs ->
  (forall m, calculate_volatility_measures returns = returned m ->
     (exists v, realized_volatility m = Fin v /\ 0 <= v /\
                v * v = fold_right (fun r acc => r * r + acc) 0 rs)
     /\ annualized_volatility m = fmul (historical_volatility m) (Fin (sqrt 252)))
  /\ (ewm_std 30 (map Fin rs) = [] ->
      calculate_volatility_measures returns
      = caught "Error calculating volatility measures: "%string
          (IndexError "single positional indexer is out-of-bounds"%string)).
Proof.
  intros Hclean. unfold calculate_volatility_measures. rewrite Hclean. split.
  - intros m Hcall.
    destruct (iloc_last (ewm_std 30 (map Fin rs))) as [e | ewma]; [discriminate |].
    cbn [bind ret try_except returned] in Hcall.
    pose proof (sum_of_squares_nonneg rs) as Hnonneg.
    unfold np_sum in Hcall. rewrite sum_of_squares, Rplus_0_l in Hcall.
    rewrite (fsqrt_nonneg (fold_right _ _ _)) in Hcall by assumption.
    rewrite (fsqrt_nonneg 252) in Hcall by lra.
    injection Hcall as <-.
    cbn [realized_volatility annualized_volatility historical_volatility].
    split; [| reflexivity].
    eexists. split; [reflexivity |]. split; [apply sqrt_pos |].
    now apply sqrt_sqrt.
  - intros Hewm. rewrite Hewm. reflexivity.
Qed.

Lemma in_series_from (xs : list float) :
  forall a i x,
    In (i, x) (series_from a xs)
    <-> (a <= i)%nat /\ nth_error xs (i - a) = Some x.
Proof.
  induction xs as [| y xs IH]; intros a i x.
  - simpl. split; [tauto |]. intros [_ H]. now destruct (i - a)%nat.
  - rewrite series_from_cons. simpl In. rewrite IH. split.
    + intros [H | [Hle Hnth]].
      * injection H as <- <-. split; [lia |]. now rewrite Nat.sub_diag.
      * split; [lia |]. replace (i - a)%nat with (S (i - S a)) by lia. exact Hnth.
    + intros [Hle Hnth]. destruct (Nat.eq_dec a i) as [<- | Hne].
      * left. rewrite Nat.sub_diag in Hnth. simpl in Hnth. congruence.
      * right. split; [lia |].
        replace (i - a)%nat with (S (i - S a)) in Hnth by lia. exact Hnth.
Qed.

(** X5: with the method 'iqr', [detect_outliers] reports exactly the
    values of the input that are not NaN and lie below Q1 - 1.5 IQR or
    above Q3 + 1.5 IQR, each under its position in the input (NaN entries
    counted); their number, which is at most the number of values kept; and
    a percentage between 0 and 100. *)
Theorem detect_outliers_iqr (returns : list float) (threshold : float)
    (report : OutlierReport) :
  let returns_clean := dropna (of_column returns) in
  let Q1 := quantile (values returns_clean) (Fin 0.25) in
  let Q3 := quantile (values returns_clean) (Fin 0.75) in
  let lower_bound := fsub Q1 (fmul (Fin 1.5) (fsub Q3 Q1)) in
  let upper_bound := fadd Q3 (fmul (Fin 1.5) (fsub Q3 Q1)) in
  detect_outliers returns "iqr"%string threshold = returned report ->
  (forall i x,
      In (i, x) (outliers report)
      <-> nth_error returns i = Some x /\ isnan x = false /\
          (flt x lower_bound || fgt x upper_bound = true))
  /\ num_outliers report = length (outliers report)
  /\ outlier_indices report = labels (outliers report)
  /\ (num_outliers report <= length returns_clean)%nat
  /\ exists pct, outlier_percentage report = Fin pct /\ 0 <= pct <= 100.
Proof.
  intros returns_clean Q1 Q3 lower_bound upper_bound Hcall.
  unfold detect_outliers in Hcall. fold returns_clean in Hcall.
  unfold select_outliers in Hcall. cbn [String.eqb Ascii.eqb Bool.eqb] in Hcall.
  fold Q1 Q3 in Hcall. fold lower_bound upper_bound in Hcall. cbv zeta in Hcall.
  unfold ret in Hcall.
  destruct (Nat.eqb_spec (length returns_clean) 0) as [| Hne]; [discriminate |].
  injection Hcall as <-.
  cbn [outliers num_outliers outlier_indices outlier_percentage].
  set (found := filter (fun ix => flt (snd ix) lower_bound || fgt (snd ix) upper_bound)
                  returns_clean).
  assert (Hle : (length found <= length returns_clean)%nat)
    by apply filter_length_le.
  split; [| split; [reflexivity | split; [reflexivity | split; [exact Hle |]]]].
  - intros i x. unfold found. rewrite filter_In. unfold returns_clean, dropna.
    rewrite filter_In. unfold of_column. rewrite in_series_from.
    rewrite Nat.sub_0_r. cbn [snd]. rewrite negb_true_iff.
    split; [intros [[[_ H1] H2] H3] | intros [H1 [H2 H3]]]; repeat split;
      try assumption; lia.
  - cbn [fmul]. eexists. split; [reflexivity |].
    assert (Hpos : 0 < INR (length returns_clean)) by (apply lt_0_INR; lia).
    assert (Hfound : 0 <= INR (length found)) by apply pos_INR.
    assert (Hbound : INR (length found) <= INR (length returns_clean))
      by now apply le_INR.
    assert (Hratio : 0 <= INR (length found) / INR (length returns_clean) <= 1).
    { split.
      - apply Rmult_le_pos; [assumption |].
        apply Rlt_le, Rinv_0_lt_compat; assumption.
      - apply (Rmult_le_reg_r (INR (length returns_clean))); [assumption |].
        unfold Rdiv. rewrite Rmult_assoc, Rinv_l, Rmult_1_r, Rmult_1_l by lra.
        assumption. }
    lra.
Qed.

Lemma values_dropna_series (xs : list float) :
  forall a, values (dropna (series_from a xs)) = dropna_values xs.
Proof.
  induction xs as [| x xs IH]; intros a; [reflexivity |].
  rewrite series_from_cons. unfold values, dropna, dropna_values in *. simpl.
  destruct (isnan x); simpl; [apply IH | f_equal; apply IH].
Qed.

(** X6: [detect_outliers] returns [None] on a method other than 'iqr'
    and 'zscore', after printing which methods exist, and returns [None] on
    an input without any value that is not NaN, whatever the method: the
    percentage would divide by zero. *)
Theorem detect_outliers_refusals (returns : list float) (method : string)
    (threshold : float) :
  (String.eqb method "iqr"%string = false ->
   String.eqb method "zscore"%string = false ->
   detect_outliers returns method threshold
   = caught outliers_prefix (ValueError "Method must be 'iqr' or 'zscore'"%string))
  /\ (dropna_values returns = [] ->
      value (detect_outliers returns method threshold) = None).
Proof.
  split.
  - intros Hiqr Hz. unfold detect_outliers, select_outliers.
    now rewrite Hiqr, Hz.
  - intros Hempty. unfold detect_outliers.
    assert (Hlen : length (dropna (of_column returns)) = 0%nat).
    { rewrite <- (length_map snd). fold (values (dropna (of_column returns))).
      unfold of_column. now rewrite values_dropna_series, Hempty. }
    destruct (select_outliers _ _ _); [reflexivity |].
    now rewrite Hlen.
Qed.

End DescriptiveStatistics.

(** The mean and the sample deviation of -0.009, 0.001 and 0.011. *)
Lemma spread_returns_moments :
  let returns := [Fin (- 9 / 1000); Fin (1 / 1000); Fin (11 / 1000)] in
  np_mean returns = Fin (1 / 1000) /\ sample_std returns = Fin (1 / 100).
Proof.
  intros returns.
  assert (Hmean : np_mean returns = Fin (1 / 1000)).
  { unfold np_mean, np_sum. cbn -[fdiv Rsign]. rewrite fdiv_Fin by lra.
    f_equal. field. }
  split; [exact Hmean |].
  unfold sample_std. rewrite Hmean. unfold np_sum. cbn -[fdiv fsqrt Rsign].
  rewrite fdiv_Fin by lra.
  match goal with
  | |- fsqrt (Fin ?v) = _ =>
      replace v with (1 / 100 * (1 / 100)) by field
  end.
  rewrite fsqrt_nonneg by lra. now rewrite sqrt_square by lra.
Qed.

(** The mean and the sample deviation of two returns of 0.01. *)
Lemma constant_returns_moments :
  let returns := [Fin (1 / 100); Fin (1 / 100)] in
  np_mean returns = Fin (1 / 100) /\ sample_std returns = Fin 0.
Proof.
  intros returns.
  assert (Hmean : np_mean returns = Fin (1 / 100)).
  { unfold np_mean, np_sum. cbn -[fdiv Rsign]. rewrite fdiv_Fin by lra.
    f_equal. field. }
  split; [exact Hmean |].
  unfold sample_std. rewrite Hmean. unfold np_sum. cbn -[fdiv fsqrt Rsign].
  rewrite fdiv_Fin by lra.
  match goal with
  | |- fsqrt (Fin ?v) = _ => replace v with 0 by field
  end.
  rewrite fsqrt_nonneg by lra. now rewrite sqrt_0.
Qed.

(** X3 on the returns -0.009, 0.001, 0.011 around a NaN, whose mean is
    0.001 and whose sample deviation is 0.01, and on two equal returns of
    0.01, whose deviation is zero: the Sharpe ratio is then plus
    infinity. *)
Lemma annualised_statistics_witness :
  (exists stats,
     calculate_returns_statistics (D := descriptive_libraries)
       [Fin (- 9 / 1000); NaN; Fin (1 / 1000); Fin (11 / 1000)] = returned stats
     /\ stat_count stats = 3%nat
     /\ annual_mean stats = Fin (1 / 1000 * 252)
     /\ sharpe_ratio stats = Fin (sqrt 252 * (1 / 1000 / (1 / 100))))
  /\ (exists stats,
        calculate_returns_statistics (D := descriptive_libraries)
          [Fin (1 / 100); NaN; Fin (1 / 100)] = returned stats
        /\ stat_std stats = Fin 0
        /\ sharpe_ratio stats = PInf).
Proof.
  destruct spread_returns_moments as [Hmean Hstd].
  destruct constant_returns_moments as [Hmean0 Hstd0].
  split.
  - destruct (annualised_statistics (D := descriptive_libraries)
                [Fin (- 9 / 1000); NaN; Fin (1 / 1000); Fin (11 / 1000)]
                (1 / 1000) (1 / 100) (Fin 0) (Fin 0) (Fin 0, Fin 1)
                Hmean Hstd eq_refl eq_refl eq_refl)
      as [stats [Hcall [Hcount [_ [_ [Hannual [_ [Hsharpe _]]]]]]]].
    exists stats. split; [exact Hcall |]. split; [exact Hcount |].
    split; [exact Hannual |]. apply Hsharpe. lra.
  - destruct (annualised_statistics (D := descriptive_libraries)
                [Fin (1 / 100); NaN; Fin (1 / 100)]
                (1 / 100) 0 (Fin 0) (Fin 0) (Fin 0, Fin 1)
                Hmean0 Hstd0 eq_refl eq_refl eq_refl)
      as [stats [Hcall [_ [_ [Hs [_ [_ [_ Hsharpe]]]]]]]].
    exists stats. split; [exact Hcall |]. split; [exact Hs |].
    rewrite (Hsharpe eq_refl). rewrite Rsign_pos by lra. reflexivity.
Defined.

(** X4 on the returns 3 and 4 around a NaN: the realized volatility
    squares to 25. *)
Lemma volatility_measures_of_finite_returns_witness :
  dropna_values [Fin 3; NaN; Fin 4] = map Fin [3; 4]
  /\ exists m v,
       calculate_volatility_measures (D := sample_data_libraries hundred_rows)
         [Fin 3; NaN; Fin 4] = returned m
       /\ realized_volatility m = Fin v /\ 0 <= v
       /\ v * v = 3 * 3 + (4 * 4 + 0).
Proof.
  split; [reflexivity |].
  destruct (volatility_measures_of_finite_returns
              (D := sample_data_libraries hundred_rows)
              [Fin 3; NaN; Fin 4] [3; 4] eq_refl) as [Hreturned _].
  destruct (Hreturned _ eq_refl) as [[v [Hv [Hv0 Hvv]]] _].
  eexists _, v. split; [reflexivity |]. split; [exact Hv |].
  split; [exact Hv0 | exact Hvv].
Defined.

(** X5 with fences at -1 and 1: of 0, 2, NaN and -3, the 2 is reported
    under its position 1. *)
Lemma detect_outliers_iqr_witness :
  exists report,
    detect_outliers (D := sample_data_libraries hundred_rows)
      [Fin 0; Fin 2; NaN; Fin (- 3)] "iqr"%string (Fin 3) = returned report
    /\ In (1%nat, Fin 2) (outliers report)
    /\ (num_outliers report <= 3)%nat.
Proof.
  eexists. split; [reflexivity |].
  destruct (detect_outliers_iqr (D := sample_data_libraries hundred_rows)
              [Fin 0; Fin 2; NaN; Fin (- 3)] (Fin 3) _ eq_refl)
    as [Hin [_ [_ [Hnum _]]]].
  split; [| exact Hnum].
  apply Hin. split; [reflexivity |]. split; [reflexivity |].
  apply orb_true_iff. right. cbn.
  destruct (Rlt_dec _ _) as [_ | Hn]; [reflexivity | exfalso; apply Hn; lra].
Defined.

(** ** More on the GARCH methods *)

Section ForecastUnits.

Lemma rescaled_forecast_squares (vs : list R) :
  Forall (fun v => 0 <= v) vs ->
  map fsq (map (fun v => fdiv (fsqrt v) (Fin 100)) (map Fin vs))
  = map (fun v => fdiv v (Fin 10000)) (map Fin vs)
  /\ Forall (fun a => exists x, a = Fin x /\ 0 <= x)
       (map (fun v => fdiv (fsqrt v) (Fin 100)) (map Fin vs)).
Proof.
  induction 1 as [| v vs Hv _ [IHsq IHfin]]; [split; constructor |].
  cbn [map]. rewrite fsqrt_nonneg by assumption. rewrite !fdiv_Fin by lra.
  split.
  - rewrite IHsq. f_equal. cbn [fsq fmul]. f_equal.
    pose proof (sqrt_sqrt v Hv) as Hsq. field_simplify. rewrite <- Hsq at 2.
    field.
  - constructor; [| exact IHfin]. eexists. split; [reflexivity |].
    apply Rmult_le_pos; [apply sqrt_pos | lra].
Qed.

(** X7: when the last row of arch's variance forecast holds finite,
    non-negative variances, [forecast_volatility] returns as many
    volatilities and variances as that row has entries, every volatility
    finite and non-negative, and each volatility squared is the variance
    reported beside it: both vectors are on the same scale. *)
Theorem forecast_volatility_squares_to_variance (fit : ARCHModelResult)
    (horizon : nat) (rows : matrix) (vs : list R) :
  fst (forecast fit (generator_state fit) horizon "simulation"%string 1000%nat)
  = ret (rows ++ [map Fin vs]) ->
  Forall (fun v => 0 <= v) vs ->
  exists f,
    forecast_volatility (Some fit) horizon = returned f
    /\ forecast_horizon f = horizon
    /\ length (volatility_forecast f) = length vs
    /\ length (variance_forecast f) = length vs
    /\ map fsq (volatility_forecast f) = variance_forecast f
    /\ Forall (fun a => exists x, a = Fin x /\ 0 <= x) (volatility_forecast f).
Proof.
  intros Hrun Hvs.
  rewrite (forecast_volatility_rescales fit horizon rows (map Fin vs) Hrun).
  eexists. split; [reflexivity |].
  cbn [forecast_horizon volatility_forecast variance_forecast].
  rewrite !length_map.
  destruct (rescaled_forecast_squares vs Hvs) as [Hsq Hfin].
  repeat split; assumption.
Qed.

End ForecastUnits.

(** X7 on the one-step variance 4 of the sample fit. *)
Lemma forecast_volatility_squares_to_variance_witness :
  fst (forecast three_point_fit (generator_state three_point_fit) 1
         "simulation"%string 1000%nat)
  = ret ([] ++ [map Fin [4]])
  /\ Forall (fun v => 0 <= v) [4]
  /\ exists f,
       forecast_volatility (Some three_point_fit) 1 = returned f
       /\ map fsq (volatility_forecast f) = variance_forecast f.
Proof.
  assert (Hvs : Forall (fun v => 0 <= v) [4]) by (repeat constructor; lra).
  split; [reflexivity |]. split; [exact Hvs |].
  destruct (forecast_volatility_squares_to_variance three_point_fit 1 [] [4]
              eq_refl Hvs) as [f [Hcall [_ [_ [_ [Hsq _]]]]]].
  exists f. split; assumption.
Defined.

Section AfterAFailedFit.

Context {L : Libraries}.

(** X8: what the other methods do with the [None] of a failed
    [fit_garch].  Each returns [None]; [forecast_volatility],
    [get_model_summary] and [calculate_residuals] print the missing
    attribute under their own prefix, and both diagnostic tests print the
    line of [calculate_residuals] only, nothing of their own. *)
Theorem methods_after_a_failed_fit (self : self_state) (returns : list float)
    (p q : nat) (dist : string) (horizon lags : nat) :
  let model_fit := value (snd (fit_garch self returns p q dist)) in
  let missing name :=
    AttributeError ("'NoneType' object has no attribute '" ++ name ++ "'")%string in
  model_fit = None ->
  forecast_volatility model_fit horizon
  = caught forecast_prefix (missing "forecast"%string)
  /\ get_model_summary model_fit = caught summary_prefix (missing "params"%string)
  /\ calculate_residuals model_fit = caught residuals_prefix (missing "resid"%string)
  /\ ljung_box_test model_fit lags
     = caught residuals_prefix (missing "resid"%string)
  /\ arch_lm_test model_fit lags
     = caught residuals_prefix (missing "resid"%string).
Proof.
  intros model_fit missing Hnone. rewrite Hnone. repeat split.
Qed.

(** X9: the instance after [fit_garch].  A fit that is returned is the one
    stored in [self.fitted_model], with its model in [self.model]; a call
    that returns [None] leaves [self.fitted_model] as it was, so an earlier
    fit stays there. *)
Theorem fit_garch_stores_what_it_returns (self : self_state)
    (returns : list float) (p q : nat) (dist : string) :
  let after := fst (fit_garch self returns p q dist) in
  let result := value (snd (fit_garch self returns p q dist)) in
  (forall fit, result = Some fit ->
     fitted_model after = Some fit /\ exists m, model after = Some m
                                               /\ arch_model_fit m = ret fit)
  /\ (result = None -> fitted_model after = fitted_model self).
Proof.
  intros after result. unfold after, result, fit_garch.
  destruct (length (dropna_values returns) <? 50)%nat;
    [split; [discriminate | reflexivity] |].
  destruct (arch_model _ _ _ _ _) as [e | m];
    [split; [discriminate | reflexivity] |].
  destruct (arch_model_fit m) as [e | fit] eqn:Hfit;
    [split; [discriminate | reflexivity] |].
  split; [| discriminate].
  intros fit' Hfit'. injection Hfit' as <-.
  split; [reflexivity |]. exists m. split; [reflexivity | exact Hfit].
Qed.

End AfterAFailedFit.

(** X8 after a fit refused for want of data. *)
Lemma methods_after_a_failed_fit_witness :
  value (snd (fit_garch (L := sample_libraries) init [Fin 0; NaN] 1 1 "normal"%string))
  = None
  /\ ljung_box_test (L := sample_libraries)
       (value (snd (fit_garch (L := sample_libraries) init [Fin 0; NaN] 1 1
                      "normal"%string))) 10
     = mkOutcome
         ["Error calculating residuals: 'NoneType' object has no attribute 'resid'"%string]
         None.
Proof.
  split; [reflexivity |].
  destruct (methods_after_a_failed_fit (L := sample_libraries) init [Fin 0; NaN]
              1 1 "normal"%string 5 10 eq_refl) as [_ [_ [_ [Hlb _]]]].
  exact Hlb.
Defined.

Section ScaleOfResiduals.

Context {L : Libraries}.

Lemma Rsign_scaled (c x : R) : 0 < c -> Rsign (c * x) = Rsign x.
Proof.
  intros Hc. unfold Rsign.
  destruct (total_order_T (c * x) 0) as [[H1 | H1] | H1];
    destruct (total_order_T x 0) as [[H2 | H2] | H2];
    try reflexivity; exfalso; nra.
Qed.

Lemma fdiv_scaled (c r v : R) :
  0 < c -> fdiv (Fin (c * r)) (Fin (c * v)) = fdiv (Fin r) (Fin v).
Proof.
  intros Hc. cbn [fdiv]. rewrite !Rsign_scaled by assumption.
  unfold Rsign. destruct (total_order_T v 0) as [[Hv | Hv] | Hv];
    try reflexivity; f_equal; field; lra.
Qed.

Lemma standardized_scaled (c : R) (rs : list R) :
  0 < c ->
  forall vs,
    map2 fdiv (map Fin (map (Rmult c) rs)) (map Fin (map (Rmult c) vs))
    = map2 fdiv (map Fin rs) (map Fin vs).
Proof.
  intros Hc. induction rs as [| r rs IH]; intros [| v vs]; try reflexivity.
  cbn [map map2]. rewrite fdiv_scaled by assumption. f_equal. apply IH.
Qed.

(** X10: the standardized residuals do not depend on the scale of the
    series that was fitted.  For two fits whose finite residuals and
    conditional volatilities differ by one positive factor (100, between the
    returns and their percentages), [calculate_residuals] returns the same
    values, and so do the Ljung-Box and the ARCH-LM test. *)
Theorem diagnostics_do_not_depend_on_scale (fit scaled : ARCHModelResult) (c : R)
    (rs vs : list R) (lags : nat) :
  0 < c ->
  resid fit = map Fin rs ->
  conditional_volatility fit = map Fin vs ->
  resid scaled = map Fin (map (Rmult c) rs) ->
  conditional_volatility scaled = map Fin (map (Rmult c) vs) ->
  calculate_residuals (Some scaled) = calculate_residuals (Some fit)
  /\ ljung_box_test (Some scaled) lags = ljung_box_test (Some fit) lags
  /\ arch_lm_test (Some scaled) lags = arch_lm_test (Some fit) lags.
Proof.
  intros Hc Hr Hv Hr' Hv'.
  assert (Hres : calculate_residuals (Some scaled) = calculate_residuals (Some fit)).
  { unfold calculate_residuals. cbn [getattr bind ret].
    rewrite Hr, Hv, Hr', Hv'. now rewrite standardized_scaled. }
  split; [exact Hres |].
  unfold ljung_box_test, arch_lm_test, on_residuals. rewrite Hres.
  split; reflexivity.
Qed.

End ScaleOfResiduals.

(** X10 between a fit on returns and the same fit on percentages. *)
Lemma diagnostics_do_not_depend_on_scale_witness :
  0 < 100
  /\ calculate_residuals (Some small_fit_percent) = calculate_residuals (Some small_fit)
  /\ arch_lm_test (L := sample_libraries) (Some small_fit_percent) 1
     = arch_lm_test (L := sample_libraries) (Some small_fit) 1.
Proof.
  assert (Hc : 0 < 100) by lra.
  assert (Hr : resid small_fit_percent = map Fin (map (Rmult 100) [3; 4])).
  { cbn. repeat f_equal; lra. }
  assert (Hv : conditional_volatility small_fit_percent
               = map Fin (map (Rmult 100) [1; 2])).
  { cbn. repeat f_equal; lra. }
  split; [exact Hc |].
  destruct (diagnostics_do_not_depend_on_scale (L := sample_libraries)
              small_fit small_fit_percent 100 [3; 4] [1; 2] 1
              Hc eq_refl eq_refl Hr Hv) as [Hres [_ Hlm]].
  split; assumption.
Defined.

Section LjungBoxSign.

Context {L : Libraries}.

Lemma py_sum_nonneg (l : list float) :
  Forall (fun a => exists x, a = Fin x /\ 0 <= x) l ->
  forall a0, exists s, fold_left fadd l (Fin a0) = Fin s /\ a0 <= s.
Proof.
  induction 1 as [| a l [x [-> Hx]] _ IH]; intros a0.
  - exists a0. split; [reflexivity | lra].
  - cbn [fold_left fadd]. destruct (IH (a0 + x)) as [s [Hs Hle]].
    exists s. split; [exact Hs | lra].
Qed.

(** X11: with more residuals than lags and finite autocorrelations at the
    lags 1 .. L, the Ljung-Box test returns, and its statistic is a finite,
    non-negative number q.  The p-value is 1 - cdf(q, L): it lies in [0, 1]
    when the distribution function returns a number in [0, 1] there, and is
    NaN when the distribution function is. *)
Theorem ljung_box_statistic_nonnegative (fit : ARCHModelResult) (lags : nat) :
  let z := map2 fdiv (resid fit) (conditional_volatility fit) in
  (lags < length z)%nat ->
  (forall k, (1 <= k <= lags)%nat -> exists r, autocorr (map fsq z) k = Fin r) ->
  exists t q,
    ljung_box_test (Some fit) lags = returned t
    /\ test_statistic t = Fin q /\ 0 <= q
    /\ p_value t = fsub (Fin 1) (chi2_cdf (Fin q) lags)
    /\ (forall c, chi2_cdf (Fin q) lags = Fin c -> 0 <= c <= 1 ->
          exists pv, p_value t = Fin pv /\ 0 <= pv <= 1)
    /\ (chi2_cdf (Fin q) lags = NaN -> p_value t = NaN).
Proof.
  intros z HN Hrho.
  assert (Hterms :
    Forall (fun a => exists x, a = Fin x /\ 0 <= x)
      (map (fun k => fdiv (fsq (autocorr (map fsq z) k))
                       (Fin (INR (length z) - INR k))) (seq 1 lags))).
  { apply Forall_forall. intros a Ha.
    apply in_map_iff in Ha as [k [<- Hk]]. apply in_seq in Hk.
    destruct (Hrho k ltac:(lia)) as [r ->].
    assert (Hpos : 0 < INR (length z) - INR k).
    { rewrite <- minus_INR by lia. apply lt_0_INR. lia. }
    cbn [fsq fmul]. rewrite fdiv_Fin by lra. eexists. split; [reflexivity |].
    apply Rmult_le_pos; [apply Rle_0_sqr | apply Rlt_le, Rinv_0_lt_compat, Hpos]. }
  destruct (py_sum_nonneg _ Hterms 0) as [s [Hs Hs0]].
  unfold ljung_box_test, on_residuals. cbn [calculate_residuals try_except getattr
    bind ret value stdout returned]. fold z.
  rewrite ljung_box_body_formula by (right; exact HN). cbn [bind ret].
  unfold ljung_box_statistic, py_sum. rewrite Hs. cbn [fmul].
  eexists _, _. split; [reflexivity |].
  cbn [test_statistic p_value].
  split; [reflexivity |]. split; [| split; [reflexivity | split]].
  - pose proof (pos_INR (length z)) as HNpos.
    apply Rmult_le_pos; [apply Rmult_le_pos; lra | assumption].
  - intros c Hc [Hc0 Hc1]. rewrite Hc. exists (1 + - c).
    split; [reflexivity | lra].
  - intros Hnan. now rewrite Hnan.
Qed.

(** X12: with fewer residuals than lags, the ARCH-LM test cannot build
    its array: it prints that negative dimensions are not allowed and
    returns [None], the solver never being reached. *)
Theorem arch_lm_test_too_few_residuals (fit : ARCHModelResult) (lags : nat) :
  (length (map2 fdiv (resid fit) (conditional_volatility fit)) < lags)%nat ->
  arch_lm_test (Some fit) lags
  = caught arch_lm_prefix (ValueError "negative dimensions are not allowed"%string).
Proof.
  intros Hn. unfold arch_lm_test, on_residuals.
  cbn [calculate_residuals try_except getattr bind ret value stdout returned].
  unfold arch_lm_body, design. rewrite length_map.
  destruct (Nat.ltb_spec
              (length (map2 fdiv (resid fit) (conditional_volatility fit))) lags);
    [reflexivity | lia].
Qed.

End LjungBoxSign.

(** X11 on three residuals and one lag. *)
Lemma ljung_box_statistic_nonnegative_witness :
  (1 < 3)%nat
  /\ exists t q pv,
       ljung_box_test (L := sample_libraries) (Some three_point_fit) 1 = returned t
       /\ test_statistic t = Fin q /\ 0 <= q
       /\ p_value t = Fin pv /\ 0 <= pv <= 1.
Proof.
  split; [lia |].
  destruct (ljung_box_statistic_nonnegative (L := sample_libraries)
              three_point_fit 1) as [t [q [Hcall [Hq [Hq0 [_ [Hp _]]]]]]].
  - simpl. lia.
  - intros k _. eexists. reflexivity.
  - destruct (chi2_cdf_two_df_range q 0) as [c [Hc Hc01]].
    destruct (Hp c Hc Hc01) as [pv [Hpv Hpv01]].
    exists t, q, pv. repeat split; try assumption; apply Hpv01.
Defined.

(** X12 on one residual and two lags. *)
Lemma arch_lm_test_too_few_residuals_witness :
  (length (map2 fdiv (resid one_point_fit) (conditional_volatility one_point_fit))
   < 2)%nat
  /\ value (arch_lm_test (L := sample_libraries) (Some one_point_fit) 2) = None.
Proof.
  assert (Hn : (length (map2 fdiv (resid one_point_fit)
                          (conditional_volatility one_point_fit)) < 2)%nat)
    by (simpl; lia).
  split; [exact Hn |].
  rewrite (arch_lm_test_too_few_residuals (L := sample_libraries)
             one_point_fit 2 Hn).
  reflexivity.
Defined.

Section NormalEquations.

Lemma fmul_comm (a b : float) : fmul a b = fmul b a.
Proof.
  destruct a, b; cbn [fmul]; try reflexivity. f_equal. apply Rmult_comm.
Qed.

Lemma dot_comm (u : vector) : forall v, dot u v = dot v u.
Proof.
  unfold dot. induction u as [| a u IH]; intros [| b v]; try reflexivity.
  cbn [map2]. unfold np_sum in *. cbn [fold_left].
  rewrite fmul_comm.
  assert (Htail : map2 fmul u v = map2 fmul v u).
  { clear IH. revert v. induction u as [| a' u IHu]; intros [| b' v];
      try reflexivity. cbn [map2]. now rewrite fmul_comm, IHu. }
  now rewrite Htail.
Qed.

(** X13: the system [arch_lm_test] hands to [np.linalg.solve] is always
    square and symmetric: L + 1 equations in L + 1 unknowns, with
    A[j][k] = A[k][j], whatever array the regressors are in. *)
Theorem normal_equations_square_and_symmetric (lags : nat) (X : matrix)
    (y : vector) :
  let A := fst (normal_equations lags X y) in
  let b := snd (normal_equations lags X y) in
  length A = (lags + 1)%nat
  /\ Forall (fun row => length row = (lags + 1)%nat) A
  /\ length b = (lags + 1)%nat
  /\ (forall j k, (j < lags + 1)%nat -> (k < lags + 1)%nat ->
        nth k (nth j A []) NaN = nth j (nth k A []) NaN).
Proof.
  intros A b. unfold A, b, normal_equations, matmul, matvec. cbn [fst snd].
  set (T := transpose (lags + 1) X).
  assert (HT : length T = (lags + 1)%nat)
    by (unfold T, transpose; now rewrite length_map, length_seq).
  split; [now rewrite length_map |]. split; [| split; [now rewrite length_map |]].
  - apply Forall_forall. intros row Hrow.
    apply in_map_iff in Hrow as [u [<- _]]. now rewrite length_map.
  - intros j k Hj Hk.
    rewrite (nth_map_in _ T [] [] j) by lia.
    rewrite (nth_map_in _ T [] [] k) by lia.
    rewrite (nth_map_in _ T [] NaN k) by lia.
    rewrite (nth_map_in _ T [] NaN j) by lia.
    apply dot_comm.
Qed.

End NormalEquations.

Section SummaryAsDict.

Lemma lookup_dict_set (k k' : string) (v : float) (d : list (string * float)) :
  lookup k (dict_set k' v d) = if String.eqb k k' then Some v else lookup k d.
Proof.
  induction d as [| [k1 v1] d IH]; [reflexivity |].
  cbn [dict_set]. destruct (String.eqb_spec k' k1) as [-> | Hne].
  - cbn [lookup]. destruct (String.eqb k k1); reflexivity.
  - cbn [lookup]. rewrite IH.
    destruct (String.eqb_spec k k1) as [-> | _]; [| reflexivity].
    destruct (String.eqb_spec k1 k'); [congruence | reflexivity].
Qed.

Lemma lookup_app {A} (k : string) (l1 l2 : list (string * A)) :
  lookup k (l1 ++ l2)
  = match lookup k l1 with Some v => Some v | None => lookup k l2 end.
Proof.
  induction l1 as [| [k1 v1] l1 IH]; [reflexivity |].
  cbn [app lookup]. destruct (String.eqb k k1); [reflexivity | exact IH].
Qed.

Lemma lookup_dict_of_items (k : string) (ps : list (string * float)) :
  forall d,
    lookup k (fold_left (fun d kv => dict_set (fst kv) (snd kv) d) ps d)
    = match lookup k (rev ps) with Some v => Some v | None => lookup k d end.
Proof.
  induction ps as [| [k' v] ps IH]; intros d; [reflexivity |].
  cbn [fold_left fst snd rev]. rewrite IH, lookup_app, lookup_dict_set.
  destruct (lookup k (rev ps)); [reflexivity |].
  cbn [lookup]. destruct (String.eqb k k'); reflexivity.
Qed.

Lemma keys_dict_set (k : string) (v : float) (d : list (string * float)) :
  forall x, In x (map fst (dict_set k v d)) <-> x = k \/ In x (map fst d).
Proof.
  induction d as [| [k1 v1] d IH]; intros x.
  - simpl. intuition congruence.
  - cbn [dict_set]. destruct (String.eqb_spec k k1) as [-> | Hne].
    + simpl. intuition congruence.
    + cbn [map fst In]. rewrite IH. intuition congruence.
Qed.

Lemma dict_set_keeps_keys_distinct (k : string) (v : float)
    (d : list (string * float)) :
  NoDup (map fst d) -> NoDup (map fst (dict_set k v d)).
Proof.
  induction d as [| [k1 v1] d IH]; intros Hnd.
  - simpl. constructor; [intros [] | constructor].
  - cbn [dict_set]. destruct (String.eqb_spec k k1) as [-> | Hne]; [exact Hnd |].
    cbn [map fst] in *. inversion Hnd as [| ? ? Hnotin Hnd']; subst.
    constructor; [| now apply IH].
    rewrite keys_dict_set. intros [Heq | Hin]; [congruence | contradiction].
Qed.

Lemma dict_of_items_keys_distinct (ps : list (string * float)) :
  forall d,
    NoDup (map fst d) ->
    NoDup (map fst (fold_left (fun d kv => dict_set (fst kv) (snd kv) d) ps d)).
Proof.
  induction ps as [| kv ps IH]; intros d Hd; [exact Hd |].
  cbn [fold_left]. apply IH. now apply dict_set_keeps_keys_distinct.
Qed.

(** X14: the ['parameters'] of [get_model_summary] form a dict of the
    fit's parameters: every name occurs once, and looking a name up gives
    the value of its last occurrence among the fit's parameters.  The
    number of observations is the fit's. *)
Theorem summary_parameters_form_a_dict (fit : ARCHModelResult) :
  exists s,
    get_model_summary (Some fit) = returned s
    /\ NoDup (map fst (parameters s))
    /\ (forall k, lookup k (parameters s) = lookup k (rev (params fit)))
    /\ num_observations s = nobs fit.
Proof.
  eexists. split; [reflexivity |].
  cbn [parameters num_observations]. split; [| split; [| reflexivity]].
  - apply dict_of_items_keys_distinct. constructor.
  - intros k. rewrite lookup_dict_of_items.
    destruct (lookup k (rev (params fit))); reflexivity.
Qed.

End SummaryAsDict.

(** ** The analysis of the application *)

Section Analysis.

Context {D : DataLibraries} {L : Libraries}.

Local Open Scope py_scope.

Lemma dropna_values_without_nan (l : list float) :
  Forall (fun x => isnan x = false) l -> dropna_values l = l.
Proof.
  induction 1 as [| x l Hx _ IH]; [reflexivity |].
  unfold dropna_values in *. cbn [filter]. rewrite Hx. cbn [negb]. now rewrite IH.
Qed.

Lemma log_returns_of_positive_prices_finite (ps : list R) :
  forall p, Forall (fun x => 0 < x) (p :: ps) ->
    Forall (fun x => isnan x = false) (consecutive_log_returns (map Fin (p :: ps))).
Proof.
  induction ps as [| q ps IH]; intros p Hpos; [constructor |].
  inversion Hpos as [| ? ? Hp Hpos']; subst.
  inversion Hpos' as [| ? ? Hq _]; subst.
  change (consecutive_log_returns (map Fin (p :: q :: ps)))
    with (flog (fdiv (Fin q) (Fin p)) :: consecutive_log_returns (map Fin (q :: ps))).
  rewrite fdiv_Fin by lra.
  rewrite flog_pos by (apply Rdiv_lt_0_compat; assumption).
  constructor; [reflexivity | now apply IH].
Qed.

Lemma fit_garch_with_enough_data (self : self_state) (returns : list float)
    (p q : nat) (dist : string) :
  (50 <= length (dropna_values returns))%nat ->
  snd (fit_garch self returns p q dist)
  = try_except fit_prefix
      (m <- arch_model (scale_returns (dropna_values returns)) "GARCH"%string p q
              dist ;;
       arch_model_fit m).
Proof.
  intros Hn. unfold fit_garch.
  destruct (Nat.ltb_spec (length (dropna_values returns)) 50); [lia |].
  destruct (arch_model _ _ _ _ _) as [e | m]; [reflexivity |].
  cbn [bind]. destruct (arch_model_fit m); reflexivity.
Qed.

(** X15: in the application, a download that [fetch_stock_data] accepts,
    of at least 100 rows, whose price column is finite and strictly
    positive, always reaches the estimator: [calculate_returns] cannot
    fail, none of the log returns is dropped, the 50-observation guard of
    [fit_garch] does not fire, and arch is given the N - 1 log returns
    times 100.  The analysis then stops for a failed fit only if arch
    itself raises, and otherwise goes on to the forecast. *)
Theorem analysis_reaches_the_estimator
    (ticker start_date end_date : string) (forecast_horizon : nat)
    (stock_data : PriceFrame) (p : R) (ps : list R) :
  let log_returns := consecutive_log_returns (map Fin (p :: ps)) in
  value (fetch_stock_data ticker start_date end_date) = Some stock_data ->
  (100 <= frame_rows stock_data)%nat ->
  select_prices stock_data = ret (of_column (map Fin (p :: ps))) ->
  length (p :: ps) = frame_rows stock_data ->
  Forall (fun x => 0 < x) (p :: ps) ->
  length (scale_returns log_returns) = length ps
  /\ run_analysis ticker start_date end_date forecast_horizon
     = match
         value (try_except fit_prefix
                  (m <- arch_model (scale_returns log_returns) "GARCH"%string 1 1
                          "normal"%string ;;
                   arch_model_fit m))
       with
       | None => FitFailed
       | Some model_fit =>
           Analysed (returns_frame (of_column (map Fin (p :: ps)))) model_fit
             (value (forecast_volatility (Some model_fit) forecast_horizon))
       end.
Proof.
  intros log_returns Hfetch Hrows Hsel Hlen Hpos.
  assert (Hlr : length log_returns = length ps).
  { unfold log_returns. rewrite length_consecutive_log_returns, length_map.
    simpl. lia. }
  split; [unfold scale_returns; now rewrite length_map |].
  unfold run_analysis. rewrite Hfetch.
  destruct (Nat.ltb_spec (frame_rows stock_data) 100); [lia |].
  rewrite (calculate_returns_selected _ _ Hsel). cbn [value returned].
  destruct (returns_frame_of_column (map Fin (p :: ps))) as [_ Hcol].
  rewrite Hcol. fold log_returns.
  assert (Hclean : dropna_values log_returns = log_returns).
  { apply dropna_values_without_nan.
    now apply log_returns_of_positive_prices_finite. }
  rewrite fit_garch_with_enough_data; rewrite Hclean; [reflexivity |].
  rewrite Hlr. simpl in Hlen. lia.
Qed.

End Analysis.

(** X15 on a download of a hundred closes. *)
Lemma analysis_reaches_the_estimator_witness :
  value (fetch_stock_data (D := sample_data_libraries hundred_rows)
           "ACME"%string "2024-01-01"%string "2024-06-01"%string)
  = Some (frame_dropna hundred_rows)
  /\ (100 <= frame_rows (frame_dropna hundred_rows))%nat
  /\ Forall (fun x => 0 < x) (10 :: repeat 10 99)
  /\ exists df model_fit forecasts,
       run_analysis (D := sample_data_libraries hundred_rows) (L := sample_libraries)
         "ACME"%string "2024-01-01"%string "2024-06-01"%string 5
       = Analysed df model_fit forecasts.
Proof.
  assert (Hfetch : value (fetch_stock_data (D := sample_data_libraries hundred_rows)
                            "ACME"%string "2024-01-01"%string "2024-06-01"%string)
                   = Some (frame_dropna hundred_rows)) by reflexivity.
  assert (Hrows : (100 <= frame_rows (frame_dropna hundred_rows))%nat)
    by (vm_compute; lia).
  assert (Hpos : Forall (fun x => 0 < x) (10 :: repeat 10 99)).
  { constructor; [lra |]. apply Forall_forall. intros x Hx.
    apply repeat_spec in Hx. lra. }
  split; [exact Hfetch |]. split; [exact Hrows |]. split; [exact Hpos |].
  destruct (analysis_reaches_the_estimator
              (D := sample_data_libraries hundred_rows) (L := sample_libraries)
              "ACME"%string "2024-01-01"%string "2024-06-01"%string 5
              (frame_dropna hundred_rows) 10 (repeat 10 99)
              Hfetch Hrows eq_refl eq_refl Hpos) as [_ Hrun].
  rewrite Hrun. eexists _, _, _. reflexivity.
Defined.

(** ** Units of the export and of the chart *)

Section ExportUnits.

(** X16: the conditional variance the application exports is on the
    percent scale, unlike the conditional volatility its chart draws: for
    finite volatilities, each exported variance is 10000 times the square of
    the plotted volatility. *)
Theorem exported_variance_is_on_the_percent_scale (fit : ARCHModelResult)
    (vs : list R) :
  conditional_volatility fit = map Fin vs ->
  plotted_conditional_volatility fit = map Fin (map (fun v => v / 100) vs)
  /\ exported_conditional_variance fit
     = map (fun v => fmul (Fin 10000) (fsq v)) (plotted_conditional_volatility fit).
Proof.
  intros Hvs. unfold plotted_conditional_volatility, exported_conditional_variance.
  rewrite Hvs. clear Hvs. induction vs as [| v vs [IHp IHe]]; [split; reflexivity |].
  cbn [map]. rewrite fdiv_Fin by lra. split.
  - f_equal. exact IHp.
  - f_equal; [| exact IHe]. cbn [fsq fmul]. f_equal. field.
Qed.

End ExportUnits.

(** X16 on volatilities of 100 and 200 percent. *)
Lemma exported_variance_is_on_the_percent_scale_witness :
  conditional_volatility small_fit_percent = map Fin [100; 200]
  /\ plotted_conditional_volatility small_fit_percent
     = map Fin (map (fun v => v / 100) [100; 200]).
Proof.
  split; [reflexivity |].
  destruct (exported_variance_is_on_the_percent_scale small_fit_percent [100; 200]
              eq_refl) as [Hplot _].
  exact Hplot.
Defined.
